(** * EdgeAlert: the alerting decision engine of [main.py]

    A shallow embedding of the polling cycle of the EdgeAlert bot
    ([check_alert_conditions], [should_send_alert], the market cache
    and [poll_markets]) and the properties of its specification.

    Conventions of the embedding.
    - Python [float] is IEEE binary64: Rocq's primitive [float].
    - Python [str] is [string]; a character is a code point below 256
      (Latin-1), which fixes [str.lower] and [str.split].
    - A naive [datetime] is the number of microseconds since an
      arbitrary epoch, a [Z]; [timedelta] likewise.
    - The three SQLite tables are finite maps keyed by their primary
      key ([users] keeps its row order, it is iterated).
    - [datetime.now()] reads a clock: the successive readings of one
      run are a function [nat -> Z] and the state counts the reads. *)

From Stdlib Require Import ZArith Floats Ascii String.
From stdpp Require Import gmap strings list fin_maps.

Set Warnings "-inexact-float".

#[local] Open Scope string_scope.
#[local] Open Scope Z_scope.

(* ===================================================================== *)
(** ** Strings: [str.lower], [str.split], [in] *)
(* ===================================================================== *)

Module Str.

(** Code point of a character. *)
Definition code (c : ascii) : N := N_of_ascii c.

(** [c.lower()] on Latin-1: A-Z, and the accented capitals
    U+00C0..U+00DE except the multiplication sign U+00D7. *)
Definition lower_char (c : ascii) : ascii :=
  let n := code c in
  if ((65 <=? n) && (n <=? 90))%N then ascii_of_N (n + 32)
  else if ((192 <=? n) && (n <=? 222) && negb (n =? 215))%N
       then ascii_of_N (n + 32)
       else c.

(** [s.lower()] *)
Fixpoint lower (s : string) : string :=
  match s with
  | EmptyString => EmptyString
  | String c s' => String (lower_char c) (lower s')
  end.

(** [c.isspace()] below 256: TAB..CR, FS..US, space, NEL, NBSP. *)
Definition isspace (c : ascii) : bool :=
  let n := code c in
  (((9 <=? n) && (n <=? 13)) || ((28 <=? n) && (n <=? 32))
   || (n =? 133) || (n =? 160))%N.

Definition is_empty (s : string) : bool :=
  match s with EmptyString => true | _ => false end.

(** [s.split()]: maximal runs of non-space characters, left to right.
    [acc] is the word being read. *)
Fixpoint split_from (acc s : string) : list string :=
  match s with
  | EmptyString => if is_empty acc then [] else [acc]
  | String c s' =>
      if isspace c
      then (if is_empty acc then split_from EmptyString s'
            else acc :: split_from EmptyString s')
      else split_from (acc ++ String c EmptyString) s'
  end.

Definition split (s : string) : list string := split_from EmptyString s.

(** [p] is a prefix of [s] ([s.startswith(p)]). *)
Fixpoint starts_with (p s : string) : bool :=
  match p, s with
  | EmptyString, _ => true
  | String a p', String b s' => if Ascii.eqb a b then starts_with p' s' else false
  | String _ _, EmptyString => false
  end.

(** [kw in s] *)
Fixpoint contains (kw s : string) : bool :=
  starts_with kw s
  || match s with
     | EmptyString => false
     | String _ s' => contains kw s'
     end.

(** A string is in lower case when [lower] leaves it as it is. *)
Definition is_lower (s : string) : Prop := lower s = s.

(** [' '.join(ws)] *)
Fixpoint join (ws : list string) : string :=
  match ws with
  | [] => EmptyString
  | [w] => w
  | w :: ws' => w ++ " " ++ join ws'
  end.

End Str.

(* ===================================================================== *)
(** ** Floats: [round(x, 1)] *)
(* ===================================================================== *)

Module Flt.

#[local] Open Scope Z_scope.

(** The binary64 nearest to [num / den] (ties to even), with sign
    [s], for [num, den > 0] and a quotient in the normal range. *)
Definition nearest_ratio (s : bool) (num den : Z) : float :=
  let lb := Z.log2 num - Z.log2 den in
  let scaled k := if 0 <=? k then (num * 2 ^ k, den) else (num, den * 2 ^ (- k)) in
  let k0 := 52 - lb in
  let '(n0, d0) := scaled k0 in
  let k := if n0 / d0 <? 2 ^ 52 then k0 + 1 else k0 in
  let '(n, d) := scaled k in
  let q := n / d in
  let r := n mod d in
  let q' := if 2 * r <? d then q
            else if d <? 2 * r then q + 1
            else if Z.even q then q else q + 1 in
  SF2Prim (S754_finite s (Z.to_pos q') (- k)).

(** [round(x, 1)]: the decimal rounding (half to even, on the exact
    value of [x]) to one digit after the point, then the nearest
    binary64.  NaN, the infinities and the zeros round to themselves. *)
Definition round1 (x : float) : float :=
  match Prim2SF x with
  | S754_finite s m e =>
      if 0 <=? e then x
      else
        let d := 2 ^ (- e) in
        let n10 := 10 * Z.pos m in
        let q := n10 / d in
        let r := n10 mod d in
        let n := if 2 * r <? d then q
                 else if d <? 2 * r then q + 1
                 else if Z.even q then q else q + 1 in
        if n =? 0 then (if s then (-0)%float else 0%float)
        else nearest_ratio s n 10
  | _ => x
  end.

End Flt.

(* ===================================================================== *)
(** ** Market snapshots and the change detector *)
(* ===================================================================== *)

(** One entry of the list built by [fetch_polymarket_markets]. *)
Record market := {
  market_id : string;      (* 'id' *)
  question : string;
  yes_price : float;
  volume_24h : float;
  category : string
}.

(** The dict returned by [get_cached_market_data]. *)
Record old_data := {
  last_price : float;
  last_volume : float
}.

Inductive alert_type := price_shift | whale_alert.

Definition alert_type_name (k : alert_type) : string :=
  match k with
  | price_shift => "price_shift"
  | whale_alert => "whale_alert"
  end.

(** The [details] dict of an alert. *)
Record details := {
  old_price : float;
  new_price : float;
  change_pct : float;
  volume_spike : float
}.

Section ChangeDetector.

#[local] Open Scope float_scope.

(** [((new - old) / old) * 100 if old > 0 else 0] *)
Definition pct_change (new old : float) : float :=
  if 0 <? old then ((new - old) / old) * 100 else 0.

Definition price_change (m : market) (od : old_data) : float :=
  pct_change (yes_price m) (last_price od).

Definition volume_change (m : market) (od : old_data) : float :=
  pct_change (volume_24h m) (last_volume od).

Definition make_details (m : market) (od : old_data) : details :=
  {| old_price := last_price od * 100;
     new_price := yes_price m * 100;
     change_pct := Flt.round1 (price_change m od);
     volume_spike := Flt.round1 (volume_change m od) |}.

(** Rule A: [abs(price_change) >= threshold]. *)
Definition rule_a (m : market) (od : old_data) (threshold : float) : bool :=
  threshold <=? abs (price_change m od).

(** Rule B: [volume_change > 200 and new_volume > 5000]. *)
Definition rule_b (m : market) (od : old_data) : bool :=
  (200 <? volume_change m od) && (5000 <? volume_24h m).

(** [check_alert_conditions(market, old_data, threshold)].  The
    triple [(False, None, {})] is [None]; [(True, kind, details)] is
    [Some (kind, details)]. *)
Definition check_alert_conditions (m : market) (old : option old_data)
    (threshold : float) : option (alert_type * details) :=
  match old with
  | None => None
  | Some od =>
      if rule_a m od threshold then Some (price_shift, make_details m od)
      else if rule_b m od then Some (whale_alert, make_details m od)
      else None
  end.

End ChangeDetector.

(* ===================================================================== *)
(** ** Time *)
(* ===================================================================== *)

Module Time.

(** [timedelta(minutes=30)], in microseconds. *)
Definition cooldown : Z := 30 * 60 * 1000000.

Definition day : Z := 24 * 60 * 60 * 1000000.

(** [t.date()], and SQLite's [DATE(timestamp)] on [t.isoformat()]:
    the number of the calendar day. *)
Definition date (t : Z) : Z := t / day.

End Time.

(* ===================================================================== *)
(** ** The database *)
(* ===================================================================== *)

(** A row of [users]. *)
Record user_row := {
  user_id : string;
  keywords : string;
  threshold : float;
  is_pro : bool;
  created_at : Z
}.

(** A row of [market_cache], without its key. *)
Record market_row := {
  mc_last_price : float;
  mc_last_volume : float;
  updated_at : Z
}.

(** [edgealert.db].  [alert_cache] has the primary key
    [(market_id, user_id)] and one column, [timestamp]. *)
Record db := {
  users : list user_row;
  alert_cache : gmap (string * string) Z;
  market_cache : gmap string market_row
}.

Definition init_database : db :=
  {| users := []; alert_cache := ∅; market_cache := ∅ |}.

Definition set_alert_cache (d : db) (c : gmap (string * string) Z) : db :=
  {| users := users d; alert_cache := c; market_cache := market_cache d |}.

Definition set_market_cache (d : db) (c : gmap string market_row) : db :=
  {| users := users d; alert_cache := alert_cache d; market_cache := c |}.

Definition set_users (d : db) (us : list user_row) : db :=
  {| users := us; alert_cache := alert_cache d; market_cache := market_cache d |}.

(** [SELECT COUNT( * ) FROM alert_cache WHERE user_id = ? AND
    DATE(timestamp) = ?] *)
Definition alert_count (c : gmap (string * string) Z) (uid : string) (today : Z) : nat :=
  length (filter (λ row : string * string * Z,
                    row.1.2 = uid ∧ Time.date row.2 = today)
                 (map_to_list c)).

(* ===================================================================== *)
(** ** The commands that write [users] *)
(* ===================================================================== *)

Definition has_user (uid : string) (us : list user_row) : bool :=
  existsb (λ u, String.eqb (user_id u) uid) us.

Definition set_keywords (u : user_row) (k : string) : user_row :=
  {| user_id := user_id u; keywords := k; threshold := threshold u;
     is_pro := is_pro u; created_at := created_at u |}.


(** [/subscribe kw1 kw2 ...] at time [now]. *)
Definition subscribe (now : Z) (uid : string) (kws : list string) (d : db) : db :=
  match kws with
  | [] => d
  | _ =>
      let keywords_str := Str.lower (Str.join kws) in
      if has_user uid (users d)
      then set_users d
             (map (λ u, if String.eqb (user_id u) uid
                        then set_keywords u (keywords u ++ " " ++ keywords_str)
                        else u) (users d))
      else set_users d
             (users d ++ [ {| user_id := uid; keywords := keywords_str;
                              threshold := 5%float; is_pro := false;
                              created_at := now |} ])
  end.


(* ===================================================================== *)
(** ** The matching predicate *)
(* ===================================================================== *)

(** [keywords.split() if keywords else []] *)
Definition user_keywords (keywords : string) : list string :=
  if Str.is_empty keywords then [] else Str.split keywords.

(** [kw in market['question'].lower() or kw == market['category']] *)
Definition keyword_hits (m : market) (kw : string) : bool :=
  Str.contains kw (Str.lower (question m)) || String.eqb kw (category m).

(** The negation of the [continue] guard of [poll_markets]:
    [not (user_keywords and not any(...))]. *)
Definition matches (m : market) (keywords : string) : bool :=
  match user_keywords keywords with
  | [] => true
  | kws => existsb (keyword_hits m) kws
  end.

(* ===================================================================== *)
(** ** Delivery *)
(* ===================================================================== *)

(** What [bot.fetch_user] and [user.send] do, seen from [poll_markets]:
    - [Sent]: the message went out;
    - [Forbidden]: [user.send] raised [discord.Forbidden], which
      [send_alert_embed] swallows;
    - [Failed]: any other exception, caught by [poll_markets]. *)
Inductive outcome := Sent | Forbidden | Failed.

Record delivery := {
  d_user : string;
  d_market : market;
  d_kind : alert_type;
  d_details : details;
  d_outcome : outcome
}.

(** The chat platform: the outcome of the [n]-th attempt of a cycle. *)
Definition notifier := nat → string → market → alert_type → details → outcome.

(** [send_alert_embed] starts with [calculate_edge(market)], which
    divides by [market['yes_price']]: a [ZeroDivisionError] when that is
    zero, before anything is sent. *)
Definition attempt (notify : notifier) (n : nat) (uid : string) (m : market)
    (k : alert_type) (dt : details) : outcome :=
  match notify n uid m k dt with
  | Failed => Failed
  | o => if (yes_price m =? 0)%float then Failed else o
  end.

(** The number printed as [alerts_sent]. *)
Definition alerts_sent (log : list delivery) : nat :=
  length (List.filter (λ e, match d_outcome e with Failed => false | _ => true end) log).

(** The alerts that reached user [uid]. *)
Definition delivered_to (uid : string) (log : list delivery) : list delivery :=
  List.filter (λ e, String.eqb (d_user e) uid
                    && match d_outcome e with Sent => true | _ => false end) log.

(* ===================================================================== *)
(** ** The engine, in a state monad *)
(* ===================================================================== *)

(** The state of a run: the database, the number of clock reads so far
    and the delivery attempts so far (oldest first). *)
Record state := {
  st_db : db;
  reads : nat;
  log : list delivery
}.

Definition M (A : Type) : Type := state → A * state.

Definition ret {A} (a : A) : M A := λ s, (a, s).

Definition bind {A B} (c : M A) (k : A → M B) : M B :=
  λ s, let '(a, s') := c s in k a s'.

Notation "x <- c ;; k" := (bind c (λ x, k))
  (at level 100, c at next level, right associativity).
Notation "c ;;; k" := (bind c (λ _, k))
  (at level 100, right associativity).

Definition get_db : M db := λ s, (st_db s, s).

Definition put_db (d : db) : M unit :=
  λ s, (tt, {| st_db := d; reads := reads s; log := log s |}).

Definition record_delivery (e : nat → delivery) : M unit :=
  λ s, (tt, {| st_db := st_db s; reads := reads s;
               log := log s ++ [e (length (log s))] |}).

(** [for x in xs: body(x)] *)
Fixpoint for_each {A} (xs : list A) (body : A → M unit) : M unit :=
  match xs with
  | [] => ret tt
  | x :: xs' => body x ;;; for_each xs' body
  end.

Section Engine.

(** The successive readings of [datetime.now()]. *)
Variable clock : nat → Z.

Definition now : M Z :=
  λ s, (clock (reads s),
        {| st_db := st_db s; reads := S (reads s); log := log s |}).

Definition get_cached_market_data (mid : string) : M (option old_data) :=
  d <- get_db ;;
  ret (match market_cache d !! mid with
       | Some r => Some {| last_price := mc_last_price r;
                           last_volume := mc_last_volume r |}
       | None => None
       end).

Definition update_market_cache (m : market) : M unit :=
  d <- get_db ;;
  t <- now ;;
  put_db (set_market_cache d
            (<[market_id m := {| mc_last_price := yes_price m;
                                 mc_last_volume := volume_24h m;
                                 updated_at := t |}]> (market_cache d))).

(** The [INSERT OR REPLACE] of [should_send_alert]. *)
Definition mark_alerted (mid uid : string) : M bool :=
  d <- get_db ;;
  t <- now ;;
  put_db (set_alert_cache d (<[(mid, uid) := t]> (alert_cache d))) ;;;
  ret true.

Definition should_send_alert (mid uid : string) : M bool :=
  d <- get_db ;;
  match alert_cache d !! (mid, uid) with
  | Some last_alert_time =>
      t <- now ;;
      if t - last_alert_time <? Time.cooldown then ret false
      else mark_alerted mid uid
  | None => mark_alerted mid uid
  end.

(** The free-tier check of [poll_markets]: [true] when the alert may
    go out. *)
Definition free_tier_ok (uid : string) : M bool :=
  t <- now ;;
  d <- get_db ;;
  ret (negb (3 <=? alert_count (alert_cache d) uid (Time.date t))%nat).

Variable notify : notifier.

Definition send_alert (u : user_row) (m : market) (k : alert_type)
    (dt : details) : M unit :=
  record_delivery (λ n,
    {| d_user := user_id u; d_market := m; d_kind := k; d_details := dt;
       d_outcome := attempt notify n (user_id u) m k dt |}).

(** The body of the inner loop of [poll_markets]. *)
Definition process_user (m : market) (old : option old_data) (u : user_row)
    : M unit :=
  if negb (matches m (keywords u)) then ret tt
  else
    match check_alert_conditions m old (threshold u) with
    | None => ret tt
    | Some (k, dt) =>
        granted <- should_send_alert (market_id m) (user_id u) ;;
        if negb granted then ret tt
        else
          ok <- (if is_pro u then ret true else free_tier_ok (user_id u)) ;;
          if negb ok then ret tt
          else send_alert u m k dt
    end.

(** The body of the outer loop. *)
Definition process_market (us : list user_row) (m : market) : M unit :=
  old <- get_cached_market_data (market_id m) ;;
  for_each us (process_user m old) ;;;
  update_market_cache m.

(** One cycle, on the list [markets] returned by
    [fetch_polymarket_markets]. *)
Definition poll_markets (markets : list market) : M unit :=
  match markets with
  | [] => ret tt
  | _ =>
      d <- get_db ;;
      match users d with
      | [] => ret tt
      | us => for_each markets (process_market us)
      end
  end.

End Engine.

(** A cycle started on database [d]: the database it leaves and its
    delivery attempts. *)
Definition run_cycle (clock : nat → Z) (notify : notifier)
    (markets : list market) (d : db) : db * list delivery :=
  let s := snd (poll_markets clock notify markets
                  {| st_db := d; reads := 0; log := [] |}) in
  (st_db s, log s).

(** Successive cycles, each with its clock, its notifier and its
    fetched markets; the logs of all cycles, oldest first. *)
Fixpoint run_cycles (cycles : list ((nat → Z) * notifier * list market))
    (d : db) : db * list delivery :=
  match cycles with
  | [] => (d, [])
  | (clock, notify, markets) :: rest =>
      let '(d1, l1) := run_cycle clock notify markets d in
      let '(d2, l2) := run_cycles rest d1 in
      (d2, (l1 ++ l2)%list)
  end.

(* ===================================================================== *)
(** ** Notions of the specification *)
(* ===================================================================== *)

(** A sequence of calls to the cooldown gate, one per key
    [(market_id, user_id)].  Each call is recorded with the reading of
    the clock when it starts, its answer, and its last reading of the
    clock, which is the timestamp it stores when it grants. *)
Record gate_call := {
  g_key : string * string;
  g_time : Z;
  g_granted : bool;
  g_stamp : Z
}.

Fixpoint gate_calls (clock : nat → Z) (keys : list (string * string))
    (s : state) : list gate_call :=
  match keys with
  | [] => []
  | k :: ks =>
      let r := should_send_alert clock k.1 k.2 s in
      {| g_key := k; g_time := clock (reads s); g_granted := r.1;
         g_stamp := clock (pred (reads r.2)) |}
      :: gate_calls clock ks r.2
  end.

(** The clock never runs backwards. *)
Definition monotone (clock : nat → Z) : Prop := ∀ n, clock n ≤ clock (S n).

(** [get_cached_market_data] on a state. *)
Definition cached (mid : string) (s : state) : option old_data :=
  (get_cached_market_data mid s).1.

(** The tables a step keeps: [users] and [market_cache]. *)
Definition keeps_markets (s s' : state) : Prop :=
  users (st_db s') = users (st_db s)
  ∧ market_cache (st_db s') = market_cache (st_db s).

(** A delivery attempt without its outcome. *)
Definition attempt_of (e : delivery) : string * market * alert_type * details :=
  (d_user e, d_market e, d_kind e, d_details e).

(** Two runs that differ only in the outcomes of their deliveries. *)
Definition same_but_outcomes (s1 s2 : state) : Prop :=
  st_db s1 = st_db s2 ∧ reads s1 = reads s2
  ∧ attempt_of <$> log s1 = attempt_of <$> log s2.

Definition same_but_outcomes_M {A} (c1 c2 : M A) : Prop :=
  ∀ s1 s2, same_but_outcomes s1 s2 →
           (c1 s1).1 = (c2 s2).1 ∧ same_but_outcomes (c1 s1).2 (c2 s2).2.

(** Every delivery attempt of the log has its cooldown record, stamped
    with one of the readings of the clock made so far. *)
Definition attempts_recorded (clock : nat → Z) (s : state) : Prop :=
  ∀ e, e ∈ log s →
       ∃ n, (n < reads s)%nat
            ∧ alert_cache (st_db s) !! (market_id (d_market e), d_user e)
              = Some (clock n).

(** Every keyword string stored in [users] is in lower case. *)
Definition keywords_lower (d : db) : Prop :=
  Forall (λ u, Str.is_lower (keywords u)) (users d).

(** [kw] occurs in [text] when letter case is ignored. *)
Definition ci_substring (kw text : string) : Prop :=
  ∃ pre post, Str.lower text = pre ++ Str.lower kw ++ post.

(* ===================================================================== *)
(** ** Sample inputs *)
(* ===================================================================== *)

Module Sample.

(** Midnight of some day, and minutes. *)
Definition midnight : Z := 20000 * Time.day.
Definition minutes (n : Z) : Z := n * 60 * 1000000.

Definition mk (mid : string) (p v : float) : market :=
  {| market_id := mid; question := "Will Bitcoin hit 100k?";
     yes_price := p; volume_24h := v; category := "crypto" |}.

Definition sample_market : market := mk "m1" 0.48 1200.

(** The state cached for [m1] by the previous cycle. *)
Definition sample_old : old_data :=
  {| last_price := 0.40; last_volume := 1000 |}.

(** A snapshot whose price and volume both jumped. *)
Definition both_rules_market : market := mk "m1" 0.48 6000.

Definition always_sent : notifier := λ _ _ _ _ _, Sent.
Definition always_failed : notifier := λ _ _ _ _ _, Failed.

(** A clock that stands still at [t]. *)
Definition at_time (t : Z) : nat → Z := λ _, t.

(** A clock that advances by twenty minutes at each reading. *)
Definition slow_clock : nat → Z := λ n, midnight + minutes (20 * Z.of_nat n).

(** One free-tier user, subscribed through [/subscribe Bitcoin]. *)
Definition one_user : db := subscribe midnight "42" ["Bitcoin"] init_database.

(** A cycle at [k] times 31 minutes past midnight that fetches the
    market [m1] at price [p]; every delivery succeeds. *)
Definition swing (k : Z) (p : float) : (nat → Z) * notifier * list market :=
  (at_time (midnight + minutes (31 * k)), always_sent, [mk "m1" p 1000]).

(** The price of [m1] goes up and down by 20% every 31 minutes. *)
Definition five_cycles : list ((nat → Z) * notifier * list market) :=
  [swing 0 0.40; swing 1 0.48; swing 2 0.40; swing 3 0.48; swing 4 0.40].

Definition three_markets (p : float) : list market :=
  [mk "m1" p 1000; mk "m2" p 1000; mk "m3" p 1000].

(** Three markets seen for the first time at midnight; five minutes
    later the price of each has gone up by 20%. *)
Definition three_jumps : list ((nat → Z) * notifier * list market) :=
  [(at_time midnight, always_sent, three_markets 0.40);
   (at_time (midnight + minutes 5), always_sent, three_markets 0.48)].

(** The database after a first cycle has cached [m1] at 0.40. *)
Definition seen_once : db :=
  (run_cycle (at_time midnight) always_sent [mk "m1" 0.40 1000] one_user).1.

Definition start (d : db) : state := {| st_db := d; reads := 0; log := [] |}.

End Sample.

(* ===================================================================== *)
(** ** More of [main.py]: the edge estimate, and notions for its
       properties *)
(* ===================================================================== *)

(** [calculate_edge(market, user_estimate)]; [None] is the
    [ZeroDivisionError] of the division by [market['yes_price']]. *)
Definition calculate_edge (m : market) (user_estimate : float) : option float :=
  let market_prob := yes_price m in
  if (market_prob =? 0)%float then None
  else Some (Flt.round1 (((user_estimate - market_prob) / market_prob) * 100)%float).

(** No character of [s] is white space. *)
Fixpoint no_space (s : string) : bool :=
  match s with
  | EmptyString => true
  | String c s' => negb (Str.isspace c) && no_space s'
  end.

(** A word: not empty, without white space. *)
Definition is_word (w : string) : Prop :=
  Str.is_empty w = false ∧ no_space w = true.

(** The key of [alert_cache] a delivery attempt belongs to. *)
Definition alert_key (e : delivery) : string * string :=
  (market_id (d_market e), d_user e).

(** What the guard of [/threshold] lets through: neither below 1 nor
    above 20. *)
Definition threshold_accepted (p : float) : Prop :=
  (p <? 1)%float = false ∧ (20 <? p)%float = false.


(** The columns of a [users] row that [/subscribe] never writes. *)
Definition row_settings (u : user_row) : string * float * bool * Z :=
  (user_id u, threshold u, is_pro u, created_at u).

(** All the readings of the clock lie less than a cooldown apart. *)
Definition short_cycle (clock : nat → Z) : Prop :=
  ∀ i j, clock i - clock j < Time.cooldown.

(** All the readings of the clock fall on calendar day [day]. *)
Definition on_day (clock : nat → Z) (day : Z) : Prop :=
  ∀ n, Time.date (clock n) = day.

(** The delivery attempts made for user [uid]. *)
Definition attempts_for (uid : string) (l : list delivery) : list delivery :=
  filter (λ e, d_user e = uid) l.

(** What [poll_markets] may attempt for the users [us] and the fetched
    markets [ms]: a delivery to a subscribed user whose keywords match
    a fetched market on which the detector fired with the threshold of
    that user; its outcome is the one of the delivery code. *)
Definition attempt_valid (notify : notifier) (us : list user_row)
    (ms : list market) (e : delivery) : Prop :=
  ∃ u od n,
    u ∈ us ∧ d_market e ∈ ms ∧ d_user e = user_id u
    ∧ matches (d_market e) (keywords u) = true
    ∧ check_alert_conditions (d_market e) (Some od) (threshold u)
      = Some (d_kind e, d_details e)
    ∧ d_outcome e
      = attempt notify n (d_user e) (d_market e) (d_kind e) (d_details e).

(** The keys of [alert_cache] a cycle may write: a fetched market with
    a subscribed user. *)
Definition cycle_key (us : list user_row) (ms : list market)
    (k : string * string) : Prop :=
  ∃ m u, m ∈ ms ∧ u ∈ us ∧ k = (market_id m, user_id u).

(** Every character of [s] is white space. *)
Fixpoint all_space (s : string) : bool :=
  match s with
  | EmptyString => true
  | String c s' => Str.isspace c && all_space s'
  end.


(* ===================================================================== *)
(** ** Properties of the string functions *)
(* ===================================================================== *)

Module StrFacts.
Import Str.

Lemma starts_with_app (p s : string) :
  starts_with p s = true ↔ ∃ post, s = p ++ post.
Proof.
  revert s. induction p as [|a p IH]; intros s; simpl.
  - split; [intros _; by exists s | done].
  - destruct s as [|b s].
    + split; [done | intros [post H]; discriminate H].
    + destruct (Ascii.eqb a b) eqn:E.
      * apply Ascii.eqb_eq in E as ->. rewrite IH.
        split; intros [post H]; exists post; [by rewrite H | by injection H].
      * apply Ascii.eqb_neq in E.
        split; [done | intros [post H]; injection H; intros; congruence].
Qed.

Lemma contains_app (kw s : string) :
  contains kw s = true ↔ ∃ pre post, s = pre ++ kw ++ post.
Proof.
  induction s as [|b s IH]; simpl; rewrite orb_true_iff, starts_with_app.
  - split.
    + intros [[post H] | H]; [by exists "", post | done].
    + intros (pre & post & H). left.
      destruct pre; [by exists post |]. discriminate H.
  - rewrite IH. split.
    + intros [[post H] | (pre & post & H)].
      * by exists "", post.
      * exists (String b pre), post. simpl. by rewrite H.
    + intros (pre & post & H). destruct pre as [|c pre]; simpl in H.
      * left. by exists post.
      * right. injection H as _ H. by exists pre, post.
Qed.



Lemma lower_app (s t : string) : lower (s ++ t) = lower s ++ lower t.
Proof. induction s; simpl; [done | by rewrite IHs]. Qed.

Lemma is_lower_app (s t : string) : is_lower s → is_lower t → is_lower (s ++ t).
Proof. unfold is_lower. intros Hs Ht. by rewrite lower_app, Hs, Ht. Qed.

Lemma is_lower_cons (c : ascii) (s : string) :
  is_lower (String c s) → lower_char c = c ∧ is_lower s.
Proof. unfold is_lower. simpl. intros H. by injection H. Qed.

Lemma split_from_lower (acc s : string) :
  is_lower acc → is_lower s → Forall is_lower (split_from acc s).
Proof.
  revert acc. induction s as [|c s IH]; intros acc Hacc Hs; simpl.
  - destruct (is_empty acc); auto.
  - apply is_lower_cons in Hs as [Hc Hs].
    destruct (isspace c).
    + destruct (is_empty acc); [|constructor; [done|]]; by apply IH.
    + apply IH; [|done]. apply is_lower_app; [done|].
      unfold is_lower. simpl. by rewrite Hc.
Qed.

Lemma split_lower (s : string) : is_lower s → Forall is_lower (split s).
Proof. intros H. by apply split_from_lower. Qed.

End StrFacts.

Lemma init_database_keywords_lower : keywords_lower init_database.
Proof. constructor. Qed.



(* ===================================================================== *)
(** ** The matching predicate (C9) *)
(* ===================================================================== *)

(** C9: for a keyword string in lower case, as [/subscribe] stores it,
    the market matches iff the keyword list is empty, or some keyword
    occurs in the question when case is ignored, or some keyword is the
    category tag.  [matches] is a function of the market and the
    keywords alone: it reads and writes no store, and a user that does
    not match leaves the whole state of the cycle as it was. *)
Theorem matches_iff (m : market) (kws : string) :
  Str.is_lower kws →
  (matches m kws = true ↔
     user_keywords kws = []
     ∨ ∃ kw, kw ∈ user_keywords kws
             ∧ (ci_substring kw (question m) ∨ kw = category m))
  ∧ ∀ clock notify old u s,
      keywords u = kws → matches m kws = false →
      process_user clock notify m old u s = (tt, s).
Proof.
  intros Hlow. split.
  - assert (Hws : Forall Str.is_lower (user_keywords kws)).
    { unfold user_keywords. destruct (Str.is_empty kws); [constructor|].
      by apply StrFacts.split_lower. }
    unfold matches. destruct (user_keywords kws) as [|w ws] eqn:E.
    + split; [by left | done].
    + rewrite existsb_exists. split.
      * intros (kw & Hin & Hhit). right. exists kw.
        split; [by apply list_elem_of_In|].
        unfold keyword_hits in Hhit. apply orb_true_iff in Hhit as [Hc | He].
        -- left. apply StrFacts.contains_app in Hc as (pre & post & Hc).
           exists pre, post. rewrite Hc. f_equal. f_equal.
           symmetry. eapply Forall_forall in Hws; [exact Hws|].
           by apply list_elem_of_In.
        -- right. by apply String.eqb_eq.
      * intros [? | (kw & Hin & Hhit)]; [done|]. exists kw.
        split; [by apply list_elem_of_In|].
        unfold keyword_hits. apply orb_true_iff. destruct Hhit as [(pre & post & Hc) | ->].
        -- left. apply StrFacts.contains_app. exists pre, post. rewrite Hc.
           f_equal. f_equal. eapply Forall_forall in Hws; [exact Hws|]. done.
        -- right. apply String.eqb_refl.
  - intros clock notify old u s Hk Hno. unfold process_user. by rewrite Hk, Hno.
Qed.

Lemma matches_iff_witness :
  matches Sample.sample_market "bitcoin election" = true.
Proof.
  apply (matches_iff Sample.sample_market "bitcoin election"); [reflexivity|].
  right. exists "bitcoin". split.
  - vm_compute. apply list_elem_of_here.
  - left. exists "will ", " hit 100k?". reflexivity.
Defined.

(* ===================================================================== *)
(** ** The change detector (C3, C7) *)
(* ===================================================================== *)

Section ChangeDetectorFacts.

#[local] Open Scope float_scope.

(** [round(x, 1)] on a few values: half to even on the exact binary
    value, the sign of zero kept. *)
Example round1_values :
  Flt.round1 19.999999999999989 = 20 ∧ Flt.round1 0.25 = 0.2
  ∧ Flt.round1 0.35 = 0.3 ∧ Flt.round1 0.75 = 0.8
  ∧ Flt.round1 (-16.666666666666664) = -16.7
  ∧ Flt.round1 (-0.04) = -0 ∧ Flt.round1 1e300 = 1e300
  ∧ Flt.round1 infinity = infinity.
Proof. repeat split; reflexivity. Qed.

Lemma no_alert_on_first_sighting (m : market) (th : float) :
  check_alert_conditions m None th = None.
Proof. reflexivity. Qed.

(** The three outcomes of the detector on a market seen before. *)
Lemma check_alert_conditions_cases (m : market) (od : old_data) (th : float) :
  check_alert_conditions m (Some od) th =
    if rule_a m od th then Some (price_shift, make_details m od)
    else if rule_b m od then Some (whale_alert, make_details m od)
    else None.
Proof. reflexivity. Qed.

Lemma check_alert_conditions_fires (m : market) (old : option old_data)
    (th : float) (k : alert_type) (dt : details) :
  check_alert_conditions m old th = Some (k, dt) →
  ∃ od, old = Some od ∧ dt = make_details m od
        ∧ (k = price_shift ∧ rule_a m od th = true
           ∨ k = whale_alert ∧ rule_a m od th = false ∧ rule_b m od = true).
Proof.
  destruct old as [od|]; [|discriminate]. simpl.
  destruct (rule_a m od th) eqn:Ea; [|destruct (rule_b m od) eqn:Eb];
    intros H; inversion H; subst; exists od; naive_solver.
Qed.

(** C7: when the condition of rule A and the condition of rule B both
    hold, the alert is a "price_shift". *)
Theorem rule_a_takes_precedence (m : market) (od : old_data) (th : float) :
  (th <=? abs (price_change m od)) = true →
  (200 <? volume_change m od) = true →
  (5000 <? volume_24h m) = true →
  ∃ dt, check_alert_conditions m (Some od) th = Some (price_shift, dt)
        ∧ alert_type_name price_shift = "price_shift"%string.
Proof.
  intros Ha _ _. exists (make_details m od).
  rewrite check_alert_conditions_cases. unfold rule_a. by rewrite Ha.
Qed.

Lemma rule_a_takes_precedence_witness :
  ∃ dt, check_alert_conditions Sample.both_rules_market (Some Sample.sample_old) 5
        = Some (price_shift, dt)
        ∧ alert_type_name price_shift = "price_shift"%string.
Proof.
  apply (rule_a_takes_precedence Sample.both_rules_market Sample.sample_old 5);
    reflexivity.
Defined.

(** C3, as the specification states it, fails: the event of the
    0.40 -> 0.48 move carries 40 and 48, not 0.40 and 0.48. *)
Lemma raw_prices_not_carried :
  ¬ (∀ k dt,
       check_alert_conditions Sample.sample_market (Some Sample.sample_old) 5
         = Some (k, dt) →
       old_price dt = last_price Sample.sample_old
       ∧ new_price dt = yes_price Sample.sample_market).
Proof.
  intros H.
  destruct (H price_shift (make_details Sample.sample_market Sample.sample_old))
    as [Hold _]; [reflexivity|].
  apply (f_equal (λ x, x =? 40)) in Hold. vm_compute in Hold. discriminate Hold.
Qed.

(** C3, amended: an alert, of either kind, carries the prior and the
    current price multiplied by 100, and the price and volume changes
    in percent rounded to one decimal. *)
Theorem alert_carries_cents (m : market) (old : option old_data) (th : float)
    (k : alert_type) (dt : details) :
  check_alert_conditions m old th = Some (k, dt) →
  ∃ od, old = Some od
        ∧ old_price dt = last_price od * 100
        ∧ new_price dt = yes_price m * 100
        ∧ change_pct dt = Flt.round1 (price_change m od)
        ∧ volume_spike dt = Flt.round1 (volume_change m od).
Proof.
  intros H. apply check_alert_conditions_fires in H as (od & -> & -> & _).
  by exists od.
Qed.

Lemma alert_carries_cents_witness :
  ∃ od, Some Sample.sample_old = Some od
        ∧ 40 = last_price od * 100
        ∧ 48 = yes_price Sample.sample_market * 100
        ∧ 20 = Flt.round1 (price_change Sample.sample_market od)
        ∧ 20 = Flt.round1 (volume_change Sample.sample_market od).
Proof.
  apply (alert_carries_cents Sample.sample_market (Some Sample.sample_old) 5
           price_shift
           {| old_price := 40; new_price := 48; change_pct := 20;
              volume_spike := 20 |}).
  reflexivity.
Defined.

End ChangeDetectorFacts.

(* ===================================================================== *)
(** ** The cooldown gate (C5, C6) *)
(* ===================================================================== *)

Section Gate.

Variable clock : nat → Z.

Lemma should_send_alert_absent (mid uid : string) (s : state) :
  alert_cache (st_db s) !! (mid, uid) = None →
  should_send_alert clock mid uid s =
    (true, {| st_db := set_alert_cache (st_db s)
                         (<[(mid, uid) := clock (reads s)]> (alert_cache (st_db s)));
              reads := S (reads s); log := log s |}).
Proof.
  intros H. unfold should_send_alert, bind, get_db. by rewrite H.
Qed.

Lemma should_send_alert_recent (mid uid : string) (s : state) (last : Z) :
  alert_cache (st_db s) !! (mid, uid) = Some last →
  clock (reads s) - last < Time.cooldown →
  should_send_alert clock mid uid s =
    (false, {| st_db := st_db s; reads := S (reads s); log := log s |}).
Proof.
  intros H Hlt. unfold should_send_alert, bind, get_db, now. rewrite H.
  apply Z.ltb_lt in Hlt. by rewrite Hlt.
Qed.

Lemma should_send_alert_elapsed (mid uid : string) (s : state) (last : Z) :
  alert_cache (st_db s) !! (mid, uid) = Some last →
  Time.cooldown ≤ clock (reads s) - last →
  should_send_alert clock mid uid s =
    (true, {| st_db := set_alert_cache (st_db s)
                         (<[(mid, uid) := clock (S (reads s))]> (alert_cache (st_db s)));
              reads := S (S (reads s)); log := log s |}).
Proof.
  intros H Hge. unfold should_send_alert, bind, get_db, now. rewrite H.
  apply Z.ltb_ge in Hge. by rewrite Hge.
Qed.

(** The three cases of one call. *)
Lemma should_send_alert_cases (mid uid : string) (s : state) :
  (alert_cache (st_db s) !! (mid, uid) = None
   ∧ should_send_alert clock mid uid s =
       (true, {| st_db := set_alert_cache (st_db s)
                   (<[(mid, uid) := clock (reads s)]> (alert_cache (st_db s)));
                 reads := S (reads s); log := log s |}))
  ∨ (∃ last, alert_cache (st_db s) !! (mid, uid) = Some last
       ∧ clock (reads s) - last < Time.cooldown
       ∧ should_send_alert clock mid uid s =
           (false, {| st_db := st_db s; reads := S (reads s); log := log s |}))
  ∨ (∃ last, alert_cache (st_db s) !! (mid, uid) = Some last
       ∧ Time.cooldown ≤ clock (reads s) - last
       ∧ should_send_alert clock mid uid s =
           (true, {| st_db := set_alert_cache (st_db s)
                       (<[(mid, uid) := clock (S (reads s))]> (alert_cache (st_db s)));
                     reads := S (S (reads s)); log := log s |})).
Proof.
  destruct (alert_cache (st_db s) !! (mid, uid)) as [last|] eqn:E.
  - destruct (Z.lt_ge_cases (clock (reads s) - last) Time.cooldown).
    + right; left. exists last. eauto using should_send_alert_recent.
    + right; right. exists last. eauto using should_send_alert_elapsed.
  - left. eauto using should_send_alert_absent.
Qed.

(** C6: one call grants exactly when the pair has no record or the
    stored timestamp is at least 30 minutes old; a granting call
    replaces the timestamp of the pair by the time it read last and
    changes nothing else; a refusing call leaves the database as it
    was. *)
Theorem cooldown_gate (mid uid : string) (s : state) :
  let r := should_send_alert clock mid uid s in
  let before := alert_cache (st_db s) !! (mid, uid) in
  Time.cooldown = 30 * 60 * 1000000
  ∧ (r.1 = true ↔
       before = None
       ∨ ∃ last, before = Some last ∧ Time.cooldown ≤ clock (reads s) - last)
  ∧ (r.1 = true →
       (reads s < reads r.2)%nat
       ∧ st_db r.2 = set_alert_cache (st_db s)
                       (<[(mid, uid) := clock (pred (reads r.2))]>
                          (alert_cache (st_db s))))
  ∧ (r.1 = false → st_db r.2 = st_db s).
Proof.
  intros r before. subst r before. split; [reflexivity|].
  destruct (should_send_alert_cases mid uid s)
    as [[Hb ->] | [(last & Hb & Ht & ->) | (last & Hb & Ht & ->)]];
    rewrite Hb; simpl; repeat split; try done; try lia; eauto.
  intros [? | (l & Hl & Hge)]; [done|]. injection Hl as <-. lia.
Qed.

End Gate.

Lemma cooldown_gate_witness :
  st_db (should_send_alert (Sample.at_time Sample.midnight) "m1" "42"
           {| st_db := Sample.one_user; reads := 0; log := [] |}).2
  = set_alert_cache Sample.one_user
      (<[("m1", "42") := Sample.midnight]> (alert_cache Sample.one_user)).
Proof.
  apply (cooldown_gate (Sample.at_time Sample.midnight) "m1" "42"
           {| st_db := Sample.one_user; reads := 0; log := [] |}).
  reflexivity.
Defined.

Section GateSequence.

Variable clock : nat → Z.
Hypothesis clock_monotone : monotone clock.

Lemma cooldown_pos : 0 < Time.cooldown.
Proof. reflexivity. Qed.

(** What one call of a sequence leaves behind for key [p]. *)
Lemma gate_step (k p : string * string) (s : state) :
  let r := should_send_alert clock k.1 k.2 s in
  let stamp := clock (pred (reads r.2)) in
  clock (reads s) ≤ stamp
  ∧ alert_cache (st_db r.2) !! p
    = (if r.1 then if decide (k = p) then Some stamp
                   else alert_cache (st_db s) !! p
       else alert_cache (st_db s) !! p)
  ∧ (r.1 = true → ∀ last, alert_cache (st_db s) !! k = Some last →
       Time.cooldown ≤ clock (reads s) - last)
  ∧ (r.1 = false → ∃ last, alert_cache (st_db s) !! k = Some last
                            ∧ clock (reads s) - last < Time.cooldown).
Proof.
  destruct k as [mid uid]. simpl.
  destruct (should_send_alert_cases clock mid uid s)
    as [[Hb ->] | [(last & Hb & Ht & ->) | (last & Hb & Ht & ->)]]; simpl.
  - repeat split; [lia | | congruence | done].
    case_decide; simplify_map_eq; done.
  - repeat split; [lia | done | eauto].
  - repeat split; [apply clock_monotone | | | done].
    + case_decide; simplify_map_eq; done.
    + intros _ l Hl. rewrite Hb in Hl. injection Hl as <-. done.
Qed.

(** After a record [w] is stored for [p], every later grant for [p]
    starts at least a cooldown after [w]. *)
Lemma grants_after_record (keys : list (string * string)) (s : state)
    (p : string * string) (w : Z) (e : gate_call) :
  alert_cache (st_db s) !! p = Some w →
  e ∈ gate_calls clock keys s →
  g_key e = p → g_granted e = true →
  Time.cooldown ≤ g_time e - w.
Proof.
  revert s w. induction keys as [|k ks IH]; intros s w Hw Hin Hk Hg; simpl in Hin.
  - by apply elem_of_nil in Hin.
  - destruct (gate_step k p s) as (Hmono & Hlk & Hyes & _).
    apply elem_of_cons in Hin as [-> | Hin]; simpl in *.
    + subst k. by apply Hyes.
    + destruct (should_send_alert clock k.1 k.2 s) as [r s'] eqn:E. simpl in *.
      destruct r; [case_decide as Hkp|].
      * subst k. specialize (Hyes eq_refl w Hw).
        pose proof (IH s' _ Hlk Hin Hk Hg). pose proof cooldown_pos. lia.
      * rewrite Hw in Hlk. by eapply IH.
      * rewrite Hw in Hlk. by eapply IH.
Qed.

Lemma grants_apart (keys : list (string * string)) (s : state)
    (i j : nat) (e1 e2 : gate_call) :
  (i < j)%nat →
  gate_calls clock keys s !! i = Some e1 →
  gate_calls clock keys s !! j = Some e2 →
  g_key e1 = g_key e2 →
  g_granted e1 = true → g_granted e2 = true →
  Time.cooldown ≤ g_time e2 - g_stamp e1 ∧ g_time e1 ≤ g_stamp e1.
Proof.
  revert s i j. induction keys as [|k ks IH]; intros s i j Hij H1 H2 Hk G1 G2;
    simpl in *; [done|].
  destruct j as [|j]; [lia|]. simpl in H2.
  destruct i as [|i]; simpl in H1.
  - injection H1 as <-. simpl in *.
    destruct (gate_step k (g_key e2) s) as (Hmono & Hlk & _).
    rewrite G1 in Hlk. subst k. rewrite decide_True in Hlk by done.
    split; [|done].
    eapply grants_after_record; [exact Hlk | | done | done].
    by eapply list_elem_of_lookup_2.
  - eapply IH; [| exact H1 | exact H2 | done..]. lia.
Qed.

Lemma grant_when_elapsed (keys : list (string * string)) (s : state)
    (j : nat) (e : gate_call) :
  gate_calls clock keys s !! j = Some e →
  (∀ last, alert_cache (st_db s) !! g_key e = Some last →
           Time.cooldown ≤ g_time e - last) →
  (∀ i e1, (i < j)%nat → gate_calls clock keys s !! i = Some e1 →
           g_key e1 = g_key e → g_granted e1 = true →
           Time.cooldown ≤ g_time e - g_stamp e1) →
  g_granted e = true.
Proof.
  revert s j. induction keys as [|k ks IH]; intros s j Hj Hinit Hprev;
    simpl in *; [done|].
  destruct (gate_step k (g_key e) s) as (_ & Hlk & _ & Hno).
  destruct j as [|j]; simpl in Hj.
  - injection Hj as <-. simpl in *.
    destruct (should_send_alert clock k.1 k.2 s).1; [done|].
    destruct (Hno eq_refl) as (last & Hl & Hlt).
    specialize (Hinit last Hl). lia.
  - eapply IH; [exact Hj | |].
    + intros last Hl. rewrite Hlk in Hl.
      destruct (should_send_alert clock k.1 k.2 s).1 eqn:G;
        [case_decide as Hkp|]; try by apply Hinit.
      injection Hl as <-.
      apply (Hprev 0%nat _ ltac:(lia) eq_refl); done.
    + intros i e1 Hi. apply (Hprev (S i)). lia.
Qed.

(** C5: in any sequence of calls to the gate, under a clock that does
    not run backwards: two grants for one pair start at least 30
    minutes apart; a call that starts less than 30 minutes after a
    grant for its pair is refused; and a call is granted when the
    record it starts from, and every timestamp stored for its pair
    by the calls before it, are at least 30 minutes old. *)
Theorem cooldown_window (keys : list (string * string)) (s : state) :
  let trace := gate_calls clock keys s in
  (∀ i j e1 e2,
     (i < j)%nat → trace !! i = Some e1 → trace !! j = Some e2 →
     g_key e1 = g_key e2 → g_granted e1 = true →
     (g_granted e2 = true → Time.cooldown ≤ g_time e2 - g_time e1)
     ∧ (g_time e2 - g_time e1 < Time.cooldown → g_granted e2 = false))
  ∧ (∀ j e,
       trace !! j = Some e →
       (∀ last, alert_cache (st_db s) !! g_key e = Some last →
                Time.cooldown ≤ g_time e - last) →
       (∀ i e1, (i < j)%nat → trace !! i = Some e1 →
                g_key e1 = g_key e → g_granted e1 = true →
                Time.cooldown ≤ g_time e - g_stamp e1) →
       g_granted e = true).
Proof.
  intros trace. subst trace. split.
  - intros i j e1 e2 Hij H1 H2 Hk G1.
    assert (Hyes : g_granted e2 = true → Time.cooldown ≤ g_time e2 - g_time e1).
    { intros G2. destruct (grants_apart keys s i j e1 e2); try done. lia. }
    split; [done|]. intros Hlt.
    destruct (g_granted e2); [|done]. specialize (Hyes eq_refl). lia.
  - intros j e. apply grant_when_elapsed.
Qed.

End GateSequence.

Lemma slow_clock_monotone : monotone Sample.slow_clock.
Proof. intros n. unfold Sample.slow_clock, Sample.minutes. lia. Qed.

Lemma cooldown_window_witness :
  Time.cooldown ≤ (Sample.midnight + Sample.minutes 40) - Sample.midnight.
Proof.
  pose (k := ("m1", "42")).
  pose (e1 := {| g_key := k; g_time := Sample.midnight; g_granted := true;
                 g_stamp := Sample.midnight |}).
  pose (e3 := {| g_key := k; g_time := Sample.midnight + Sample.minutes 40;
                 g_granted := true;
                 g_stamp := Sample.midnight + Sample.minutes 60 |}).
  refine (proj1 (proj1 (cooldown_window Sample.slow_clock slow_clock_monotone
                          [k; k; k] (Sample.start Sample.one_user))
                   0%nat 2%nat e1 e3 _ _ _ _ _) _).
  - lia.
  - vm_compute. reflexivity.
  - vm_compute. reflexivity.
  - reflexivity.
  - reflexivity.
  - reflexivity.
Defined.

(* ===================================================================== *)
(** ** The polling cycle: what a cycle leaves untouched *)
(* ===================================================================== *)


(** A preorder on states that every step of a loop respects is
    respected by the loop. *)
Lemma for_each_preserves {A} (R : state → state → Prop) (xs : list A)
    (body : A → M unit) :
  (∀ s, R s s) → (∀ s1 s2 s3, R s1 s2 → R s2 s3 → R s1 s3) →
  (∀ x s, R s (body x s).2) →
  ∀ s, R s (for_each xs body s).2.
Proof.
  intros Hrefl Htrans Hbody. induction xs as [|x xs IH]; intros s; simpl.
  - apply Hrefl.
  - unfold bind. pose proof (Hbody x s) as Hx.
    destruct (body x s) as [[] s1]. simpl in Hx. eauto.
Qed.

Section Cycle.

Variable clock : nat → Z.
Variable notify : notifier.

Lemma should_send_alert_keeps_markets (mid uid : string) (s : state) :
  keeps_markets s (should_send_alert clock mid uid s).2.
Proof.
  destruct (should_send_alert_cases clock mid uid s)
    as [[_ ->] | [(? & _ & _ & ->) | (? & _ & _ & ->)]]; by split.
Qed.

Lemma process_user_keeps_markets (m : market) (old : option old_data)
    (u : user_row) (s : state) :
  keeps_markets s (process_user clock notify m old u s).2.
Proof.
  unfold process_user.
  destruct (negb (matches m (keywords u))); [by split|].
  destruct (check_alert_conditions m old (threshold u)) as [[k dt]|]; [|by split].
  unfold bind at 1.
  pose proof (should_send_alert_keeps_markets (market_id m) (user_id u) s) as H.
  destruct (should_send_alert clock (market_id m) (user_id u) s) as [[] s1];
    simpl in *; [|done].
  destruct (is_pro u); simpl; [done|].
  unfold bind, free_tier_ok, bind, now, get_db, ret; simpl.
  by destruct (negb (negb _)).
Qed.

Lemma users_loop_keeps_markets (m : market) (old : option old_data)
    (us : list user_row) (s : state) :
  keeps_markets s (for_each us (process_user clock notify m old) s).2.
Proof.
  apply (for_each_preserves keeps_markets).
  - by split.
  - intros s1 s2 s3 [? ?] [? ?]. split; congruence.
  - intros. apply process_user_keeps_markets.
Qed.

Lemma process_market_eq (us : list user_row) (m : market) (s : state) :
  process_market clock notify us m s =
    let s1 := (for_each us (process_user clock notify m (cached (market_id m) s)) s).2 in
    (tt, {| st_db := set_market_cache (st_db s1)
                       (<[market_id m := {| mc_last_price := yes_price m;
                                            mc_last_volume := volume_24h m;
                                            updated_at := clock (reads s1) |}]>
                          (market_cache (st_db s1)));
            reads := S (reads s1); log := log s1 |}).
Proof.
  unfold process_market, cached, get_cached_market_data, bind, get_db, ret. simpl.
  by destruct (for_each us _ s) as [[] s1].
Qed.

(** One turn of the outer loop writes the row of its market, whatever
    the inner loop did. *)
Lemma process_market_cache (us : list user_row) (m : market) (s : state) :
  ∃ t, market_cache (st_db (process_market clock notify us m s).2)
       = <[market_id m := {| mc_last_price := yes_price m;
                             mc_last_volume := volume_24h m;
                             updated_at := t |}]> (market_cache (st_db s))
       ∧ users (st_db (process_market clock notify us m s).2) = users (st_db s).
Proof.
  rewrite process_market_eq. simpl.
  set (old := cached (market_id m) s).
  pose proof (users_loop_keeps_markets m old us s) as [Hu Hm].
  set (s1 := (for_each us _ s).2) in *.
  exists (clock (reads s1)). by rewrite Hm.
Qed.


(** A cycle does not write [users]. *)
Lemma poll_markets_users (markets : list market) (s : state) :
  users (st_db (poll_markets clock notify markets s).2) = users (st_db s).
Proof.
  unfold poll_markets. destruct markets as [|m ms]; [done|].
  assert (H : ∀ us', users (st_db (for_each (m :: ms)
                                     (process_market clock notify us') s).2)
                     = users (st_db s)).
  { intros us'.
    apply (for_each_preserves (λ s s', users (st_db s') = users (st_db s))).
    - done.
    - intros s1 s2 s3 H1 H2. congruence.
    - intros m' s0. by destruct (process_market_cache us' m' s0) as (t & _ & Hu). }
  unfold bind, get_db. destruct (users (st_db s)) as [|u us] eqn:E; [done|].
  by rewrite H.
Qed.

Lemma poll_markets_keywords_lower (markets : list market) (s : state) :
  keywords_lower (st_db s) →
  keywords_lower (st_db (poll_markets clock notify markets s).2).
Proof. unfold keywords_lower. by rewrite poll_markets_users. Qed.


End Cycle.



(* ===================================================================== *)
(** ** Delivery failures (C8) *)
(* ===================================================================== *)

Section Outcomes.

Variable clock : nat → Z.

Lemma same_refl (s : state) : same_but_outcomes s s.
Proof. by repeat split. Qed.

Lemma same_ret {A} (a : A) : same_but_outcomes_M (ret a) (ret a).
Proof. intros s1 s2 H. by split. Qed.

Lemma same_bind {A B} (c1 c2 : M A) (k1 k2 : A → M B) :
  same_but_outcomes_M c1 c2 →
  (∀ a, same_but_outcomes_M (k1 a) (k2 a)) →
  same_but_outcomes_M (bind c1 k1) (bind c2 k2).
Proof.
  intros Hc Hk s1 s2 H. unfold bind.
  destruct (Hc s1 s2 H) as [Ha Hs].
  destruct (c1 s1) as [a1 t1], (c2 s2) as [a2 t2]. simpl in *. subst a2.
  by apply Hk.
Qed.

Lemma same_get_db : same_but_outcomes_M get_db get_db.
Proof. intros s1 s2 H. split; [apply H | done]. Qed.

Lemma same_put_db (d : db) : same_but_outcomes_M (put_db d) (put_db d).
Proof. intros s1 s2 (_ & Hr & Hl). repeat split; simpl; done. Qed.

Lemma same_now : same_but_outcomes_M (now clock) (now clock).
Proof.
  intros s1 s2 (Hd & Hr & Hl). unfold now. simpl.
  repeat split; simpl; congruence.
Qed.

Lemma same_record (e1 e2 : nat → delivery) :
  (∀ n, attempt_of (e1 n) = attempt_of (e2 n)) →
  same_but_outcomes_M (record_delivery e1) (record_delivery e2).
Proof.
  intros He s1 s2 (Hd & Hr & Hl). unfold record_delivery. simpl.
  repeat split; simpl; try done.
  rewrite !fmap_app. simpl. rewrite Hl.
  assert (Hlen : length (log s1) = length (log s2)).
  { apply (f_equal length) in Hl. by rewrite !length_fmap in Hl. }
  by rewrite Hlen, He.
Qed.

Lemma same_for_each {A} (xs : list A) (b1 b2 : A → M unit) :
  (∀ x, same_but_outcomes_M (b1 x) (b2 x)) →
  same_but_outcomes_M (for_each xs b1) (for_each xs b2).
Proof.
  intros Hb. induction xs as [|x xs IH]; simpl.
  - apply same_ret.
  - apply same_bind; [apply Hb | intros _; apply IH].
Qed.

Ltac same_step :=
  first [ apply same_ret | apply same_get_db | apply same_put_db
        | apply same_now | apply same_bind; [|intros ?] ].

Lemma same_should_send_alert (mid uid : string) :
  same_but_outcomes_M (should_send_alert clock mid uid)
                      (should_send_alert clock mid uid).
Proof.
  unfold should_send_alert, mark_alerted.
  same_step; [same_step|].
  destruct (alert_cache a !! (mid, uid)); repeat same_step.
  destruct (_ <? _); repeat same_step.
Qed.

Lemma same_free_tier_ok (uid : string) :
  same_but_outcomes_M (free_tier_ok clock uid) (free_tier_ok clock uid).
Proof. unfold free_tier_ok. repeat same_step. Qed.

Lemma same_update_market_cache (m : market) :
  same_but_outcomes_M (update_market_cache clock m) (update_market_cache clock m).
Proof. unfold update_market_cache. repeat same_step. Qed.

Lemma same_get_cached (mid : string) :
  same_but_outcomes_M (get_cached_market_data mid)
                      (get_cached_market_data mid).
Proof. unfold get_cached_market_data. repeat same_step. Qed.

Variables notify1 notify2 : notifier.

Lemma same_process_user (m : market) (old : option old_data) (u : user_row) :
  same_but_outcomes_M (process_user clock notify1 m old u)
                      (process_user clock notify2 m old u).
Proof.
  unfold process_user.
  destruct (negb (matches m (keywords u))); [apply same_ret|].
  destruct (check_alert_conditions m old (threshold u)) as [[k dt]|];
    [|apply same_ret].
  apply same_bind; [apply same_should_send_alert|]. intros granted.
  destruct (negb granted); [apply same_ret|].
  apply same_bind.
  { destruct (is_pro u); [apply same_ret | apply same_free_tier_ok]. }
  intros ok. destruct (negb ok); [apply same_ret|].
  unfold send_alert. by apply same_record.
Qed.

Lemma same_process_market (us : list user_row) (m : market) :
  same_but_outcomes_M (process_market clock notify1 us m)
                      (process_market clock notify2 us m).
Proof.
  unfold process_market.
  apply same_bind; [apply same_get_cached|]. intros old.
  apply same_bind; [|intros _; apply same_update_market_cache].
  apply same_for_each. intros u. apply same_process_user.
Qed.

Lemma same_poll_markets (markets : list market) :
  same_but_outcomes_M (poll_markets clock notify1 markets)
                      (poll_markets clock notify2 markets).
Proof.
  unfold poll_markets. destruct markets as [|m ms]; [apply same_ret|].
  apply same_bind; [apply same_get_db|]. intros d.
  destruct (users d); [apply same_ret|].
  apply same_for_each. intros m'. apply same_process_market.
Qed.

End Outcomes.

Section Recorded.

Variable clock : nat → Z.
Variable notify : notifier.

Lemma recorded_gate (mid uid : string) (s : state) :
  attempts_recorded clock s →
  attempts_recorded clock (should_send_alert clock mid uid s).2
  ∧ log (should_send_alert clock mid uid s).2 = log s
  ∧ ((should_send_alert clock mid uid s).1 = true →
     ∃ n, (n < reads (should_send_alert clock mid uid s).2)%nat
          ∧ alert_cache (st_db (should_send_alert clock mid uid s).2) !! (mid, uid)
            = Some (clock n)).
Proof.
  intros Hs.
  destruct (should_send_alert_cases clock mid uid s)
    as [[_ ->] | [(? & _ & _ & ->) | (? & _ & _ & ->)]]; simpl.
  - repeat split.
    + intros e He. simpl in *.
      destruct (decide ((mid, uid) = (market_id (d_market e), d_user e))) as [<-|Hne].
      * exists (reads s). rewrite lookup_insert_eq. split; [lia | done].
      * destruct (Hs e He) as (n & Hn & Hl). exists n.
        rewrite lookup_insert_ne by done. split; [lia | done].
    + intros _. exists (reads s). rewrite lookup_insert_eq. split; [lia | done].
  - repeat split; [|done].
    intros e He. destruct (Hs e He) as (n & Hn & Hl). exists n.
    simpl. split; [lia | done].
  - repeat split.
    + intros e He. simpl in *.
      destruct (decide ((mid, uid) = (market_id (d_market e), d_user e))) as [<-|Hne].
      * exists (S (reads s)). rewrite lookup_insert_eq. split; [lia | done].
      * destruct (Hs e He) as (n & Hn & Hl). exists n.
        rewrite lookup_insert_ne by done. split; [lia | done].
    + intros _. exists (S (reads s)). rewrite lookup_insert_eq. split; [lia | done].
Qed.

Lemma recorded_process_user (m : market) (old : option old_data)
    (u : user_row) (s : state) :
  attempts_recorded clock s →
  attempts_recorded clock (process_user clock notify m old u s).2.
Proof.
  intros Hs. unfold process_user.
  destruct (negb (matches m (keywords u))); [done|].
  destruct (check_alert_conditions m old (threshold u)) as [[k dt]|]; [|done].
  unfold bind at 1.
  destruct (recorded_gate (market_id m) (user_id u) s Hs) as (H1 & Hlog & Hkey).
  destruct (should_send_alert clock (market_id m) (user_id u) s) as [[] s1];
    simpl in *; [|done].
  destruct (Hkey eq_refl) as (n & Hn & Hl).
  assert (Hsend : ∀ s2, st_db s2 = st_db s1 → (reads s1 ≤ reads s2)%nat →
                        log s2 = log s1 →
                        attempts_recorded clock (send_alert notify u m k dt s2).2).
  { intros s2 Hd Hr Hg e He. simpl in He. rewrite Hg in He.
    apply elem_of_app in He as [He | He]; simpl; rewrite Hd.
    - destruct (H1 e He) as (n' & Hn' & Hl'). exists n'. split; [lia | done].
    - apply list_elem_of_singleton in He as ->. simpl.
      exists n. split; [lia | done]. }
  destruct (is_pro u); simpl.
  - by apply Hsend.
  - unfold bind, free_tier_ok, bind, now, get_db, ret. simpl.
    destruct (negb (negb _)); simpl.
    + intros e He. simpl in He. destruct (H1 e He) as (n' & Hn' & Hl').
      exists n'. simpl. split; [lia | done].
    + apply (Hsend {| st_db := st_db s1; reads := S (reads s1); log := log s1 |});
        simpl; [done | lia | done].
Qed.

Lemma recorded_process_market (us : list user_row) (m : market) (s : state) :
  attempts_recorded clock s →
  attempts_recorded clock (process_market clock notify us m s).2.
Proof.
  intros Hs. rewrite process_market_eq. simpl.
  set (s1 := (for_each us _ s).2).
  assert (H1 : attempts_recorded clock s1).
  { revert Hs. subst s1.
    apply (for_each_preserves
             (λ s s', attempts_recorded clock s → attempts_recorded clock s'));
      [auto | auto |]. intros u s0. apply recorded_process_user. }
  intros e He. destruct (H1 e He) as (n & Hn & Hl). exists n. simpl.
  split; [lia | done].
Qed.

Lemma recorded_poll_markets (markets : list market) (s : state) :
  attempts_recorded clock s →
  attempts_recorded clock (poll_markets clock notify markets s).2.
Proof.
  unfold poll_markets. destruct markets as [|m ms]; [done|].
  unfold bind, get_db. destruct (users (st_db s)) as [|u us]; [done|].
  apply (for_each_preserves
           (λ s s', attempts_recorded clock s → attempts_recorded clock s'));
    [auto | auto |]. intros m' s0. apply recorded_process_market.
Qed.

End Recorded.

(** C8: the database a cycle leaves does not depend on the outcomes of
    its deliveries, and neither do the deliveries it attempts: after a
    failed delivery the cycle goes on as after a successful one.  Every
    attempt, failed or not, leaves the pair with a cooldown record
    stamped during the cycle: nothing is rolled back. *)
Theorem delivery_failure_keeps_state (clock : nat → Z) (notify1 notify2 : notifier)
    (markets : list market) (d : db) :
  (run_cycle clock notify1 markets d).1 = (run_cycle clock notify2 markets d).1
  ∧ attempt_of <$> (run_cycle clock notify1 markets d).2
    = attempt_of <$> (run_cycle clock notify2 markets d).2
  ∧ ∀ e, e ∈ (run_cycle clock notify1 markets d).2 →
         ∃ n, alert_cache (run_cycle clock notify1 markets d).1
                !! (market_id (d_market e), d_user e) = Some (clock n).
Proof.
  unfold run_cycle. simpl.
  set (s0 := {| st_db := d; reads := 0; log := [] |}).
  destruct (same_poll_markets clock notify1 notify2 markets s0 s0 (same_refl s0))
    as (_ & Hd & _ & Hl).
  repeat split; [done | done |].
  intros e He.
  destruct (recorded_poll_markets clock notify1 markets s0) with (e := e)
    as (n & _ & Hn); [|done|by exists n].
  intros e' He'. by apply elem_of_nil in He'.
Qed.

Lemma delivery_failure_keeps_state_witness :
  ∃ n, alert_cache
         (run_cycle (Sample.at_time (Sample.midnight + Sample.minutes 5))
            Sample.always_failed [Sample.sample_market] Sample.seen_once).1
         !! ("m1", "42")
       = Some (Sample.at_time (Sample.midnight + Sample.minutes 5) n).
Proof.
  pose (e := {| d_user := "42"; d_market := Sample.sample_market;
                d_kind := price_shift;
                d_details := make_details Sample.sample_market Sample.sample_old;
                d_outcome := Failed |}).
  refine (proj2 (proj2 (delivery_failure_keeps_state
                          (Sample.at_time (Sample.midnight + Sample.minutes 5))
                          Sample.always_failed Sample.always_sent
                          [Sample.sample_market] Sample.seen_once)) e _).
  assert (Hlog : (run_cycle (Sample.at_time (Sample.midnight + Sample.minutes 5))
                    Sample.always_failed [Sample.sample_market] Sample.seen_once).2
                 = [e]) by (vm_compute; reflexivity).
  rewrite Hlog. apply list_elem_of_here.
Defined.

(* ===================================================================== *)
(** ** The daily count (C10) *)
(* ===================================================================== *)

Section Quota.

Implicit Types (c : gmap (string * string) Z) (uid mid : string) (day : Z).

(** The count is the size of the set of markets that have a record
    for the user dated [day]. *)
Lemma alert_count_markets c uid day :
  ∃ S : gset string,
    (∀ mid, mid ∈ S ↔ ∃ t, c !! (mid, uid) = Some t ∧ Time.date t = day)
    ∧ alert_count c uid day = size S.
Proof.
  unfold alert_count.
  set (P := λ row : string * string * Z, row.1.2 = uid ∧ Time.date row.2 = day).
  set (l := filter P (map_to_list c)).
  exists (list_to_set ((λ row : string * string * Z, row.1.1) <$> l)). split.
  - intros mid. rewrite elem_of_list_to_set, list_elem_of_fmap. split.
    + intros ([[mid' uid'] t] & -> & Hin). simpl.
      apply list_elem_of_filter in Hin as [[Hu Hd] Hin]. simpl in *. subst uid'.
      apply elem_of_map_to_list in Hin. by exists t.
    + intros (t & Hl & Hd). exists (mid, uid, t). split; [done|].
      apply list_elem_of_filter. split; [done|]. by apply elem_of_map_to_list.
  - rewrite size_list_to_set, length_fmap; [done|].
    apply NoDup_fmap_2_strong.
    + intros [[m1 u1] t1] [[m2 u2] t2] H1 H2 Heq. simpl in Heq. subst m2.
      apply list_elem_of_filter in H1 as [[Hu1 _] H1].
      apply list_elem_of_filter in H2 as [[Hu2 _] H2]. simpl in *. subst u1 u2.
      apply elem_of_map_to_list in H1, H2. congruence.
    + apply NoDup_filter, NoDup_map_to_list.
Qed.

Lemma alert_count_realert c uid day mid (t0 t1 : Z) :
  c !! (mid, uid) = Some t0 → Time.date t0 = day → Time.date t1 = day →
  alert_count (<[(mid, uid) := t1]> c) uid day = alert_count c uid day.
Proof.
  intros Hl H0 H1.
  destruct (alert_count_markets c uid day) as (X & HX & ->).
  destruct (alert_count_markets (<[(mid, uid) := t1]> c) uid day) as (X' & HX' & ->).
  f_equal. apply set_eq. intros mid'. rewrite HX, HX'.
  destruct (decide (mid' = mid)) as [->|Hne].
  - rewrite lookup_insert_eq, Hl. split; intros _; eauto.
  - rewrite lookup_insert_ne by congruence. done.
Qed.

Lemma alert_count_new c uid day mid (t1 : Z) :
  c !! (mid, uid) = None → Time.date t1 = day →
  alert_count (<[(mid, uid) := t1]> c) uid day = S (alert_count c uid day).
Proof.
  intros Hl H1.
  destruct (alert_count_markets c uid day) as (X & HX & ->).
  destruct (alert_count_markets (<[(mid, uid) := t1]> c) uid day) as (X' & HX' & ->).
  assert (Hnot : mid ∉ X).
  { rewrite HX, Hl. intros (t & Ht & _). discriminate Ht. }
  assert (X' = {[mid]} ∪ X) as ->.
  { apply set_eq. intros mid'.
    rewrite elem_of_union, elem_of_singleton, HX, HX'.
    destruct (decide (mid' = mid)) as [->|Hne].
    - rewrite lookup_insert_eq. split; [by left | intros _; eauto].
    - rewrite lookup_insert_ne by congruence. split; [by right|].
      by intros [? | ?]. }
  rewrite size_union, size_singleton; [done|].
  intros x Hx. apply elem_of_singleton in Hx as ->. done.
Qed.

(** C10: the count compared with the limit is the number of distinct
    markets with a record for the user dated that day; a re-alert of
    a market already counted overwrites its record and leaves the
    count as it was, also when it goes through the gate after the
    cooldown. *)
Theorem quota_counts_markets c uid day :
  (∃ S : gset string,
     (∀ mid, mid ∈ S ↔ ∃ t, c !! (mid, uid) = Some t ∧ Time.date t = day)
     ∧ alert_count c uid day = size S)
  ∧ (∀ mid t0 t1,
       c !! (mid, uid) = Some t0 → Time.date t0 = day → Time.date t1 = day →
       alert_count (<[(mid, uid) := t1]> c) uid day = alert_count c uid day)
  ∧ (∀ clock s mid last,
       alert_cache (st_db s) = c →
       c !! (mid, uid) = Some last → Time.date last = day →
       Time.cooldown ≤ clock (reads s) - last →
       Time.date (clock (S (reads s))) = day →
       (should_send_alert clock mid uid s).1 = true
       ∧ alert_count (alert_cache (st_db (should_send_alert clock mid uid s).2))
           uid day
         = alert_count c uid day).
Proof.
  split; [apply alert_count_markets|].
  split; [intros; by eapply alert_count_realert|].
  intros clock s mid last <- Hl Hd Hge Hd'.
  rewrite (should_send_alert_elapsed clock mid uid s last Hl Hge). simpl.
  split; [done|]. by eapply alert_count_realert.
Qed.

End Quota.

Lemma quota_counts_markets_witness :
  alert_count (<[("m1", "42") := Sample.midnight + Sample.minutes 31]>
                 {[ ("m1", "42") := Sample.midnight ]}) "42" 20000
  = alert_count {[ ("m1", "42") := Sample.midnight ]} "42" 20000.
Proof.
  apply (quota_counts_markets {[ ("m1", "42") := Sample.midnight ]} "42" 20000)
    with (t0 := Sample.midnight); reflexivity.
Defined.

(* ===================================================================== *)
(** ** The free-tier limit (C1, C2) *)
(* ===================================================================== *)

(** The free-tier check runs after the gate has stored the record of
    the alert at hand: for a pair without a record it compares the
    limit with the count of the earlier records plus one. *)
Lemma free_tier_counts_own_slot (clock : nat → Z) (mid uid : string) (s : state) :
  alert_cache (st_db s) !! (mid, uid) = None →
  Time.date (clock (reads s)) = Time.date (clock (S (reads s))) →
  (should_send_alert clock mid uid s).1 = true
  ∧ (free_tier_ok clock uid (should_send_alert clock mid uid s).2).1
    = negb (3 <=? S (alert_count (alert_cache (st_db s)) uid
                       (Time.date (clock (S (reads s))))))%nat.
Proof.
  intros Hl Hd. rewrite (should_send_alert_absent clock mid uid s Hl).
  split; [done|]. unfold free_tier_ok, bind, now, get_db, ret. simpl.
  by rewrite (alert_count_new _ _ _ _ _ Hl Hd).
Qed.

(** C1 fails on the code: one free-tier user, one market whose price
    swings by 20% every 31 minutes.  All five cycles run on one day;
    the user is sent four alerts, and the count compared with the
    limit is still 1. *)
Theorem four_alerts_in_a_day :
  Forall (λ u, is_pro u = false) (users Sample.one_user)
  ∧ Forall (λ cyc : (nat → Z) * notifier * list market,
              ∀ n, Time.date (cyc.1.1 n) = 20000) Sample.five_cycles
  ∧ length (delivered_to "42" (run_cycles Sample.five_cycles Sample.one_user).2)
    = 4%nat
  ∧ alert_count (alert_cache (run_cycles Sample.five_cycles Sample.one_user).1)
      "42" 20000 = 1%nat.
Proof.
  split; [repeat constructor|].
  split; [repeat constructor; intros n; reflexivity|].
  split; vm_compute; reflexivity.
Qed.

(** C2 fails on the code: three markets qualify in one cycle for a
    free-tier user without any alert that day.  The gate grants the
    third pair and stores its record, the count read afterwards is 3,
    and the third alert is dropped: two alerts go out. *)
Theorem third_alert_dropped :
  (λ e, market_id (d_market e))
    <$> delivered_to "42" (run_cycles Sample.three_jumps Sample.one_user).2
  = ["m1"; "m2"]
  ∧ alert_cache (run_cycles Sample.three_jumps Sample.one_user).1 !! ("m3", "42")
    = Some (Sample.midnight + Sample.minutes 5)
  ∧ alert_count (alert_cache (run_cycles Sample.three_jumps Sample.one_user).1)
      "42" 20000 = 3%nat.
Proof. repeat split; vm_compute; reflexivity. Qed.

(* ===================================================================== *)
(** ** More on strings: [split] and [join] *)
(* ===================================================================== *)

Module SplitFacts.
Import Str.

Lemma no_space_app (s t : string) :
  no_space (s ++ t) = no_space s && no_space t.
Proof. induction s as [|c s IH]; simpl; [done|]. by rewrite IH, andb_assoc. Qed.

Lemma is_empty_app (s t : string) :
  is_empty (s ++ t) = is_empty s && is_empty t.
Proof. by destruct s. Qed.

Lemma split_from_words (acc s : string) :
  no_space acc = true → Forall is_word (split_from acc s).
Proof.
  revert acc. induction s as [|c s IH]; intros acc Hacc; simpl.
  - destruct (is_empty acc) eqn:E; [constructor|]. by repeat constructor.
  - destruct (isspace c) eqn:Ec.
    + destruct (is_empty acc) eqn:E; [by apply IH|].
      constructor; [done | by apply IH].
    + apply IH. rewrite no_space_app, Hacc. simpl. by rewrite Ec.
Qed.

Lemma split_from_app_space (acc a b : string) :
  split_from acc (a ++ " " ++ b) = (split_from acc a ++ split b)%list.
Proof.
  revert acc. induction a as [|c a IH]; intros acc; simpl.
  - unfold split. by destruct (is_empty acc).
  - destruct (isspace c); [|apply IH].
    destruct (is_empty acc); simpl; by rewrite IH.
Qed.

Lemma app_empty (s : string) : s ++ "" = s.
Proof.
  induction s as [|c s IH]; [done|].
  change (String c (s ++ "") = String c s). by rewrite IH.
Qed.

Lemma app_snoc (s w : string) (c : ascii) :
  (s ++ String c "") ++ w = s ++ String c w.
Proof.
  induction s as [|a s IH]; [done|].
  change (String a ((s ++ String c "") ++ w) = String a (s ++ String c w)).
  by rewrite IH.
Qed.

Lemma split_from_word (acc w : string) :
  no_space w = true → is_empty (acc ++ w) = false →
  split_from acc w = [acc ++ w].
Proof.
  revert acc. induction w as [|c w IH]; intros acc Hw He; simpl.
  - rewrite app_empty in *. by rewrite He.
  - simpl in Hw. apply andb_true_iff in Hw as [Hc Hw].
    apply negb_true_iff in Hc. rewrite Hc.
    rewrite IH; [by rewrite app_snoc | done | by rewrite app_snoc].
Qed.

Lemma isspace_lower_char (c : ascii) : isspace (lower_char c) = isspace c.
Proof. destruct c as [[] [] [] [] [] [] [] []]; reflexivity. Qed.

Lemma split_from_lower_map (acc s : string) :
  split_from (lower acc) (lower s) = lower <$> split_from acc s.
Proof.
  revert acc. induction s as [|c s IH]; intros acc; simpl.
  - by destruct acc.
  - rewrite isspace_lower_char. destruct (isspace c).
    + destruct acc; simpl; [apply (IH "") | f_equal; apply (IH "")].
    + rewrite <- IH. f_equal. by rewrite StrFacts.lower_app.
Qed.

(** X1: [split] undoes [join] on words: for strings that are not
    empty and hold no white space, [' '.join(ws).split()] is [ws]. *)
Theorem split_join (ws : list string) :
  Forall is_word ws → split (join ws) = ws.
Proof.
  induction 1 as [|w ws [He Hw] Hws IH]; [done|].
  destruct ws as [|w' ws'].
  - simpl. unfold split. by rewrite split_from_word.
  - change (join (w :: w' :: ws')) with (w ++ " " ++ join (w' :: ws')).
    unfold split at 1. rewrite split_from_app_space, IH.
    by rewrite split_from_word.
Qed.

Lemma split_join_witness : split (join ["crypto"; "election"]) = ["crypto"; "election"].
Proof. apply (split_join ["crypto"; "election"]). by repeat constructor. Defined.

(** X2: whatever the string, [split] returns words only (never an
    empty string, never white space inside), and returns the words of
    a string in lower case as the lower-cased words of the string. *)
Theorem split_words (s : string) :
  Forall is_word (split s) ∧ split (lower s) = lower <$> split s.
Proof.
  split; [by apply split_from_words | apply (split_from_lower_map "")].
Qed.

End SplitFacts.

(* ===================================================================== *)
(** ** The commands [/subscribe] and [/threshold] *)
(* ===================================================================== *)

Section Commands.

Lemma user_keywords_split (k : string) : user_keywords k = Str.split k.
Proof. by destruct k. Qed.




(** X3: [/subscribe] without keywords changes nothing.  With
    keywords, for a user who has a row it appends: the keyword list of
    that row becomes the old list followed by the new words in lower
    case, duplicates kept, and no other column and no other row
    changes; for a new user it adds one row at the end, on the free
    tier with threshold 5.0.  The two caches are never written. *)
Theorem subscribe_appends (now : Z) (uid : string) (kws : list string) (d : db) :
  subscribe now uid [] d = d
  ∧ alert_cache (subscribe now uid kws d) = alert_cache d
  ∧ market_cache (subscribe now uid kws d) = market_cache d
  ∧ (kws ≠ [] → has_user uid (users d) = true →
     Forall2 (λ u u',
                row_settings u' = row_settings u
                ∧ user_keywords (keywords u')
                  = if String.eqb (user_id u) uid
                    then (user_keywords (keywords u)
                            ++ Str.split (Str.lower (Str.join kws)))%list
                    else user_keywords (keywords u))
             (users d) (users (subscribe now uid kws d)))
  ∧ (kws ≠ [] → has_user uid (users d) = false →
     users (subscribe now uid kws d)
     = (users d ++ [ {| user_id := uid;
                        keywords := Str.lower (Str.join kws);
                        threshold := 5%float; is_pro := false;
                        created_at := now |} ])%list).
Proof.
  split; [done|].
  split; [unfold subscribe; destruct kws; [done|];
          by destruct (has_user uid (users d))|].
  split; [unfold subscribe; destruct kws; [done|];
          by destruct (has_user uid (users d))|].
  split.
  - intros Hk Hu. unfold subscribe. destruct kws as [|kw kws]; [done|].
    rewrite Hu. simpl. set (k := Str.lower _).
    apply Forall2_fmap_r, Forall_Forall2_diag, Forall_forall.
    intros u _. unfold compose.
    destruct (String.eqb (user_id u) uid); simpl; [|by split].
    split; [done|].
    rewrite !user_keywords_split. unfold Str.split at 1.
    apply SplitFacts.split_from_app_space.
  - intros Hk Hu. unfold subscribe. destruct kws as [|kw kws]; [done|].
    by rewrite Hu.
Qed.

Lemma subscribe_appends_witness :
  users (subscribe 7 "7" ["Sports"; "NBA"] Sample.one_user)
  = (users Sample.one_user
       ++ [ {| user_id := "7"; keywords := Str.lower (Str.join ["Sports"; "NBA"]);
               threshold := 5%float; is_pro := false; created_at := 7 |} ])%list.
Proof.
  apply (proj2 (proj2 (proj2 (proj2
           (subscribe_appends 7 "7" ["Sports"; "NBA"] Sample.one_user)))));
    [discriminate | reflexivity].
Defined.



Lemma threshold_accepted_default : threshold_accepted 5.
Proof. by split. Qed.





End Commands.

(* ===================================================================== *)
(** ** The guards against a zero baseline *)
(* ===================================================================== *)

Section Guards.

#[local] Open Scope float_scope.

(** A threshold that passed the guard of [/threshold] is above zero
    (or is not a number): it is never at most 0. *)
Lemma accepted_threshold_above_zero (th : float) :
  threshold_accepted th → (th <=? 0) = false.
Proof.
  intros [H1 H20]. revert H1 H20. rewrite !ltb_spec, leb_spec.
  change (Prim2SF 1) with (S754_finite false 4503599627370496 (-52)).
  change (Prim2SF 20) with (S754_finite false 5629499534213120 (-48)).
  change (Prim2SF 0) with (S754_zero false).
  destruct (Prim2SF th) as [s|s| |s m e]; try destruct s; simpl;
    try reflexivity; try discriminate.
Qed.

Lemma pct_change_guard (new old : float) :
  (0 <? old) = false → pct_change new old = 0.
Proof. unfold pct_change. by intros ->. Qed.

(** X6: a market cached with a price that is not above zero never
    gives a "price_shift" to a user whose threshold passed the guard
    of [/threshold], whatever its new price; if its cached volume is
    not above zero either, it gives no alert at all. *)
Theorem zero_baseline_never_alerts (m : market) (od : old_data) (th : float) :
  threshold_accepted th →
  (0 <? last_price od) = false →
  rule_a m od th = false
  ∧ ((0 <? last_volume od) = false →
     check_alert_conditions m (Some od) th = None).
Proof.
  intros Hth Hp.
  assert (Ha : rule_a m od th = false).
  { unfold rule_a, price_change. rewrite pct_change_guard by done.
    change (abs 0) with 0. by apply accepted_threshold_above_zero. }
  split; [done|]. intros Hv.
  rewrite check_alert_conditions_cases, Ha.
  unfold rule_b, volume_change. by rewrite pct_change_guard.
Qed.

Lemma zero_baseline_never_alerts_witness :
  check_alert_conditions (Sample.mk "m1" 0.9 900000)
    (Some {| last_price := 0; last_volume := 0 |}) 5 = None.
Proof.
  apply (zero_baseline_never_alerts (Sample.mk "m1" 0.9 900000)
           {| last_price := 0; last_volume := 0 |} 5);
    [by split | reflexivity | reflexivity].
Defined.

End Guards.

(* ===================================================================== *)
(** ** What a cycle does and never does *)
(* ===================================================================== *)

Lemma for_each_preserves_in {A} (R : state → state → Prop) (xs : list A)
    (body : A → M unit) :
  (∀ s, R s s) → (∀ s1 s2 s3, R s1 s2 → R s2 s3 → R s1 s3) →
  (∀ x s, x ∈ xs → R s (body x s).2) →
  ∀ s, R s (for_each xs body s).2.
Proof.
  intros Hrefl Htrans. induction xs as [|x xs IH]; intros Hbody s; simpl.
  - apply Hrefl.
  - unfold bind. pose proof (Hbody x s ltac:(by left)) as Hx.
    destruct (body x s) as [[] s1]. simpl in Hx.
    eapply Htrans; [exact Hx|]. apply IH. intros y s' Hy. apply Hbody. by right.
Qed.

Section Steps.

Variable clock : nat → Z.
Variable notify : notifier.

Lemma should_send_alert_log (mid uid : string) (s : state) :
  log (should_send_alert clock mid uid s).2 = log s
  ∧ (reads s < reads (should_send_alert clock mid uid s).2)%nat.
Proof.
  destruct (should_send_alert_cases clock mid uid s)
    as [[_ ->] | [(? & _ & _ & ->) | (? & _ & _ & ->)]]; simpl; split; lia || done.
Qed.

(** The inner loop body, with its monadic plumbing computed away. *)
Lemma process_user_eq (m : market) (old : option old_data) (u : user_row)
    (s : state) :
  process_user clock notify m old u s =
    if negb (matches m (keywords u)) then (tt, s)
    else match check_alert_conditions m old (threshold u) with
         | None => (tt, s)
         | Some (k, dt) =>
             let g := should_send_alert clock (market_id m) (user_id u) s in
             if negb g.1 then (tt, g.2)
             else if is_pro u then send_alert notify u m k dt g.2
             else
               let s2 := {| st_db := st_db g.2; reads := S (reads g.2);
                            log := log g.2 |} in
               if (3 <=? alert_count (alert_cache (st_db g.2)) (user_id u)
                           (Time.date (clock (reads g.2))))%nat
               then (tt, s2)
               else send_alert notify u m k dt s2
         end.
Proof.
  unfold process_user.
  destruct (negb (matches m (keywords u))); [done|].
  destruct (check_alert_conditions m old (threshold u)) as [[k dt]|]; [|done].
  unfold bind at 1.
  destruct (should_send_alert clock (market_id m) (user_id u) s) as [[] s1];
    simpl; [|done].
  destruct (is_pro u); [done|].
  unfold bind, free_tier_ok, bind, now, get_db, ret. simpl.
  by destruct (alert_count _ _ _) as [|[|[|?]]].
Qed.

(** One turn of the inner loop either leaves the log of deliveries as
    it is, or adds one attempt, and then all the conditions of the
    loop body held. *)
Lemma process_user_cases (m : market) (old : option old_data) (u : user_row)
    (s : state) :
  let g := should_send_alert clock (market_id m) (user_id u) s in
  let s' := (process_user clock notify m old u s).2 in
  log s' = log s
  ∨ ∃ k dt,
      matches m (keywords u) = true
      ∧ check_alert_conditions m old (threshold u) = Some (k, dt)
      ∧ g.1 = true
      ∧ st_db s' = st_db g.2
      ∧ log s' = (log s ++ [ {| d_user := user_id u; d_market := m;
                                d_kind := k; d_details := dt;
                                d_outcome := attempt notify (length (log s))
                                               (user_id u) m k dt |} ])%list
      ∧ (is_pro u = false →
         (alert_count (alert_cache (st_db s')) (user_id u)
            (Time.date (clock (pred (reads s')))) < 3)%nat).
Proof.
  intros g s'. subst s'. rewrite process_user_eq. cbv zeta. fold g.
  destruct (should_send_alert_log (market_id m) (user_id u) s) as [Hlog _].
  fold g in Hlog.
  set (full := (3 <=? alert_count (alert_cache (st_db g.2)) (user_id u)
                        (Time.date (clock (reads g.2))))%nat).
  destruct (matches m (keywords u)) eqn:Em; simpl; [|by left].
  destruct (check_alert_conditions m old (threshold u)) as [[k dt]|] eqn:Ec;
    [|by left].
  destruct (g.1) eqn:Eg; simpl; [|left; exact Hlog].
  destruct (is_pro u) eqn:Ep; simpl.
  - right. exists k, dt. rewrite Hlog. by repeat split.
  - destruct full eqn:Eq; simpl; [left; exact Hlog|].
    right. exists k, dt. rewrite Hlog. repeat split; try done.
    intros _. subst full. by apply Nat.leb_gt in Eq.
Qed.

(** X7: a paying user is never held back by the daily count: when
    the keywords match, the detector fires and the gate grants, the
    delivery is attempted, however many alerts the user had that
    day. *)
Theorem pro_user_is_not_limited (m : market) (old : option old_data)
    (u : user_row) (s : state) (k : alert_type) (dt : details) :
  is_pro u = true →
  matches m (keywords u) = true →
  check_alert_conditions m old (threshold u) = Some (k, dt) →
  (should_send_alert clock (market_id m) (user_id u) s).1 = true →
  log (process_user clock notify m old u s).2
  = (log s ++ [ {| d_user := user_id u; d_market := m;
                   d_kind := k; d_details := dt;
                   d_outcome := attempt notify (length (log s))
                                  (user_id u) m k dt |} ])%list.
Proof.
  intros Hp Hm Hc Hg. rewrite process_user_eq, Hm, Hc. simpl.
  rewrite Hg, Hp. simpl.
  by destruct (should_send_alert_log (market_id m) (user_id u) s) as [-> _].
Qed.

Lemma process_user_first_sighting (m : market) (u : user_row) (s : state) :
  process_user clock notify m None u s = (tt, s).
Proof. unfold process_user. by destruct (negb _). Qed.

Lemma users_loop_first_sighting (m : market) (us : list user_row) (s : state) :
  for_each us (process_user clock notify m None) s = (tt, s).
Proof.
  induction us as [|u us IH]; simpl; [done|].
  unfold bind. by rewrite process_user_first_sighting.
Qed.

End Steps.

Lemma pro_user_is_not_limited_witness :
  length (log (process_user (Sample.at_time (Sample.midnight + Sample.minutes 5))
                 Sample.always_sent Sample.sample_market (Some Sample.sample_old)
                 {| user_id := "9"; keywords := ""; threshold := 5;
                    is_pro := true; created_at := 0 |}
                 (Sample.start
                    (run_cycles Sample.three_jumps
                       (subscribe 0 "9" ["x"] init_database)).1)).2) = 1%nat.
Proof.
  rewrite (pro_user_is_not_limited (Sample.at_time (Sample.midnight + Sample.minutes 5))
             Sample.always_sent Sample.sample_market (Some Sample.sample_old)
             {| user_id := "9"; keywords := ""; threshold := 5;
                is_pro := true; created_at := 0 |}
             _ price_shift (make_details Sample.sample_market Sample.sample_old));
    reflexivity.
Defined.

Section CycleInvariants.

Variable clock : nat → Z.
Variable notify : notifier.

Lemma process_market_steps (us : list user_row) (m : market) (s : state) :
  (process_market clock notify us m s).2
  = (update_market_cache clock m
       (for_each us (process_user clock notify m (cached (market_id m) s)) s).2).2.
Proof. by rewrite process_market_eq. Qed.

(** A preorder on states that every turn of the inner loop and every
    write of the market cache respect is respected by the cycle. *)
Lemma poll_markets_preserves (R : state → state → Prop)
    (markets : list market) (s : state) :
  (∀ s, R s s) → (∀ s1 s2 s3, R s1 s2 → R s2 s3 → R s1 s3) →
  (∀ m u old s', m ∈ markets → u ∈ users (st_db s) →
                 R s' (process_user clock notify m old u s').2) →
  (∀ m s', m ∈ markets → R s' (update_market_cache clock m s').2) →
  R s (poll_markets clock notify markets s).2.
Proof.
  intros Hrefl Htrans Huser Hcache. unfold poll_markets.
  destruct markets as [|m0 ms0] eqn:E; [apply Hrefl|]. rewrite <- E in *. clear E.
  unfold bind, get_db.
  assert (H : ∀ us, (∀ u, u ∈ us → u ∈ users (st_db s)) →
                    R s (for_each markets (process_market clock notify us) s).2).
  { intros us Hus. apply for_each_preserves_in; [done | done |].
    intros m s' Hm. rewrite process_market_steps.
    eapply Htrans; [|by apply Hcache].
    apply for_each_preserves_in; [done | done |].
    intros u s'' Hu. apply Huser; [done | by apply Hus]. }
  destruct (users (st_db s)) as [|u us] eqn:Eu; [apply Hrefl|].
  rewrite <- Eu. apply H. by rewrite Eu.
Qed.

Lemma update_market_cache_eq (m : market) (s : state) :
  update_market_cache clock m s
  = (tt, {| st_db := set_market_cache (st_db s)
                       (<[market_id m := {| mc_last_price := yes_price m;
                                            mc_last_volume := volume_24h m;
                                            updated_at := clock (reads s) |}]>
                          (market_cache (st_db s)));
            reads := S (reads s); log := log s |}).
Proof. reflexivity. Qed.

Lemma attempts_valid_log (markets : list market) (d : db) (e : delivery) :
  e ∈ (run_cycle clock notify markets d).2 →
  attempt_valid notify (users d) markets e.
Proof.
  unfold run_cycle. simpl.
  set (s0 := {| st_db := d; reads := 0; log := [] |}).
  set (P := attempt_valid notify (users d) markets).
  assert (H : Forall P (log s0) →
              Forall P (log (poll_markets clock notify markets s0).2)).
  { apply (poll_markets_preserves (λ s s', Forall P (log s) → Forall P (log s')));
      [auto | auto | |].
    - intros m u old s Hm Hu Hs.
      destruct (process_user_cases clock notify m old u s)
        as [-> | (k & dt & Hmt & Hc & _ & _ & -> & _)]; [done|].
      apply Forall_app. split; [done|]. repeat constructor.
      destruct old as [od|]; [|discriminate Hc].
      exists u, od, (length (log s)). by repeat split.
    - intros m s _. by rewrite update_market_cache_eq. }
  intros He. eapply Forall_forall in H; [exact H | constructor | exact He].
Qed.


(** X9: [calculate_edge] fails with a division by zero exactly when
    the price of the market is zero, and then nothing is sent: in any
    cycle, every delivery attempted for such a market fails, whatever
    the chat platform would have answered. *)
Theorem zero_price_is_never_delivered (markets : list market) (d : db) :
  (∀ m est, calculate_edge m est = None ↔ (yes_price m =? 0)%float = true)
  ∧ ∀ e, e ∈ (run_cycle clock notify markets d).2 →
         calculate_edge (d_market e) 0.5 = None →
         d_outcome e = Failed.
Proof.
  split.
  - intros m est. unfold calculate_edge.
    by destruct (yes_price m =? 0)%float.
  - intros e He Hz.
    destruct (attempts_valid_log markets d e He) as (u & od & n & _ & _ & _ & _ & _ & ->).
    unfold calculate_edge in Hz. unfold attempt.
    destruct (yes_price (d_market e) =? 0)%float; [|discriminate Hz].
    by destruct (notify n _ _ _ _).
Qed.

Lemma alert_cache_update_market_cache (m : market) (s : state) :
  alert_cache (st_db (update_market_cache clock m s).2) = alert_cache (st_db s).
Proof. reflexivity. Qed.

Lemma process_user_alert_cache (m : market) (old : option old_data)
    (u : user_row) (s : state) :
  alert_cache (st_db (process_user clock notify m old u s).2)
  = alert_cache (st_db s)
  ∨ ∃ t, alert_cache (st_db (process_user clock notify m old u s).2)
         = <[(market_id m, user_id u) := t]> (alert_cache (st_db s)).
Proof.
  rewrite process_user_eq. cbv zeta.
  destruct (negb (matches m (keywords u))); [by left|].
  destruct (check_alert_conditions m old (threshold u)) as [[k dt]|]; [|by left].
  assert (Hg : ∀ s2, st_db s2 = st_db (should_send_alert clock (market_id m)
                                        (user_id u) s).2 →
               alert_cache (st_db s2) = alert_cache (st_db s)
               ∨ ∃ t, alert_cache (st_db s2)
                      = <[(market_id m, user_id u) := t]> (alert_cache (st_db s))).
  { intros s2 ->.
    destruct (should_send_alert_cases clock (market_id m) (user_id u) s)
      as [[_ ->] | [(? & _ & _ & ->) | (? & _ & _ & ->)]]; simpl; eauto. }
  destruct (should_send_alert clock (market_id m) (user_id u) s).1; cbn [negb];
    [|by apply Hg].
  destruct (is_pro u); [by apply Hg|].
  destruct (3 <=? alert_count _ _ _)%nat; by apply Hg.
Qed.

(** X10: a cycle never deletes a cooldown record, and the only
    records it writes are those of a fetched market paired with a
    subscribed user: every other key of [alert_cache] keeps its
    value. *)
Theorem cooldown_rows_written (markets : list market) (d : db)
    (k : string * string) :
  (is_Some (alert_cache d !! k) →
   is_Some (alert_cache (run_cycle clock notify markets d).1 !! k))
  ∧ (alert_cache (run_cycle clock notify markets d).1 !! k ≠ alert_cache d !! k →
     cycle_key (users d) markets k).
Proof.
  unfold run_cycle. simpl.
  set (s0 := {| st_db := d; reads := 0; log := [] |}).
  refine (poll_markets_preserves
            (λ s s', (is_Some (alert_cache (st_db s) !! k) →
                      is_Some (alert_cache (st_db s') !! k))
                     ∧ (alert_cache (st_db s') !! k ≠ alert_cache (st_db s) !! k →
                        cycle_key (users d) markets k)) markets s0 _ _ _ _).
  - intros s. split; [done | by intros []].
  - intros s1 s2 s3 [H12 K12] [H23 K23]. split; [auto|].
    intros Hne.
    destruct (decide (alert_cache (st_db s2) !! k = alert_cache (st_db s1) !! k))
      as [Heq|Hne']; [|auto].
    apply K23. by rewrite Heq.
  - intros m u old s Hm Hu.
    destruct (process_user_alert_cache m old u s) as [-> | [t ->]].
    + split; [done | by intros []].
    + destruct (decide ((market_id m, user_id u) = k)) as [<-|Hk].
      * rewrite lookup_insert_eq. split; [by eauto|].
        intros _. by exists m, u.
      * rewrite lookup_insert_ne by done. split; [done | by intros []].
  - intros m s _. rewrite alert_cache_update_market_cache.
    split; [done | by intros []].
Qed.

End CycleInvariants.

Section CycleBounds.

Variable clock : nat → Z.
Variable notify : notifier.

Lemma process_market_first_sighting (us : list user_row) (m : market) (s : state) :
  market_cache (st_db s) !! market_id m = None →
  (process_market clock notify us m s).2 = (update_market_cache clock m s).2.
Proof.
  intros Hnone. rewrite process_market_steps.
  unfold cached, get_cached_market_data, bind, get_db, ret. simpl.
  by rewrite Hnone, users_loop_first_sighting.
Qed.

Lemma markets_loop_first_sighting (us : list user_row) (ms : list market)
    (s : state) :
  NoDup (market_id <$> ms) →
  (∀ m, m ∈ ms → market_cache (st_db s) !! market_id m = None) →
  log (for_each ms (process_market clock notify us) s).2 = log s
  ∧ alert_cache (st_db (for_each ms (process_market clock notify us) s).2)
    = alert_cache (st_db s).
Proof.
  revert s. induction ms as [|m ms IH]; intros s Hnd Hnone; simpl; [done|].
  apply NoDup_cons in Hnd as [Hm Hnd].
  unfold bind.
  pose proof (process_market_first_sighting us m s (Hnone m ltac:(by left))) as Hs.
  destruct (process_market clock notify us m s) as [[] s1]. cbn [snd] in Hs.
  subst s1.
  destruct (IH (update_market_cache clock m s).2 Hnd) as [Hl Hc].
  - intros m' Hm'. rewrite update_market_cache_eq. simpl.
    rewrite lookup_insert_ne; [apply Hnone; by right|].
    intros Heq. apply Hm. rewrite Heq. apply list_elem_of_fmap. by exists m'.
  - by rewrite Hl, Hc.
Qed.

(** X11: a cycle in which every fetched market is seen for the first
    time (no cache row yet, ids all different) attempts no delivery
    and writes no cooldown record, whatever the users and their
    thresholds. *)
Theorem first_sighting_is_silent (markets : list market) (d : db) :
  NoDup (market_id <$> markets) →
  (∀ m, m ∈ markets → market_cache d !! market_id m = None) →
  (run_cycle clock notify markets d).2 = []
  ∧ alert_cache (run_cycle clock notify markets d).1 = alert_cache d.
Proof.
  intros Hnd Hnone. unfold run_cycle, poll_markets. simpl.
  destruct markets as [|m0 ms0] eqn:E; [done|]. rewrite <- E in *. clear E.
  unfold bind, get_db. simpl. destruct (users d) as [|u us]; [done|].
  by apply (markets_loop_first_sighting (u :: us) markets
              {| st_db := d; reads := 0; log := [] |}).
Qed.

Lemma recorded_update_market_cache (m : market) (s : state) :
  attempts_recorded clock s →
  attempts_recorded clock (update_market_cache clock m s).2.
Proof.
  intros Hs e He. destruct (Hs e He) as (n & Hn & Hl). exists n.
  rewrite update_market_cache_eq. simpl. split; [lia | done].
Qed.

Hypothesis clock_short : short_cycle clock.

(** In a short cycle the gate refuses a pair that was already
    attempted: the key of a new attempt is not in the log. *)
Lemma new_attempt_key_fresh (m : market) (u : user_row) (s : state) :
  attempts_recorded clock s →
  (should_send_alert clock (market_id m) (user_id u) s).1 = true →
  (market_id m, user_id u) ∉ alert_key <$> log s.
Proof.
  intros Hrec Hg Hin.
  apply list_elem_of_fmap in Hin as (e & Hk & He).
  destruct (Hrec e He) as (n & _ & Hl). unfold alert_key in Hk.
  injection Hk as Hk1 Hk2. rewrite <- Hk1, <- Hk2 in Hl.
  destruct (should_send_alert_cases clock (market_id m) (user_id u) s)
    as [[Hb _] | [(last & Hb & _ & Heq) | (last & Hb & Hge & _)]].
  - congruence.
  - rewrite Heq in Hg. discriminate Hg.
  - rewrite Hb in Hl. injection Hl as ->.
    pose proof (clock_short (reads s) n). lia.
Qed.

Lemma keys_process_user (m : market) (old : option old_data) (u : user_row)
    (s : state) :
  attempts_recorded clock s ∧ NoDup (alert_key <$> log s) →
  attempts_recorded clock (process_user clock notify m old u s).2
  ∧ NoDup (alert_key <$> log (process_user clock notify m old u s).2).
Proof.
  intros [Hrec Hnd]. split; [by apply recorded_process_user|].
  destruct (process_user_cases clock notify m old u s)
    as [-> | (k & dt & _ & _ & Hg & _ & -> & _)]; [done|].
  rewrite fmap_app. simpl. apply NoDup_app. split; [done|].
  split; [|apply NoDup_singleton].
  intros x Hx Hx'. apply list_elem_of_singleton in Hx' as ->.
  by apply (new_attempt_key_fresh m u s).
Qed.

(** X12: in a cycle whose clock readings lie less than 30 minutes
    apart, no (market, user) pair is attempted twice, even when the
    fetched list repeats a market. *)
Theorem one_attempt_per_pair (markets : list market) (d : db) :
  NoDup (alert_key <$> (run_cycle clock notify markets d).2).
Proof.
  unfold run_cycle. simpl.
  set (s0 := {| st_db := d; reads := 0; log := [] |}).
  refine (proj2 (poll_markets_preserves clock notify
            (λ s s', attempts_recorded clock s ∧ NoDup (alert_key <$> log s) →
                     attempts_recorded clock s' ∧ NoDup (alert_key <$> log s'))
            markets s0 _ _ _ _ _)).
  - auto.
  - auto.
  - intros m u old s _ _. apply keys_process_user.
  - intros m s _ [Hrec Hnd]. split; [by apply recorded_update_market_cache|done].
  - split; [|constructor]. intros e He. by apply elem_of_nil in He.
Qed.

Variable day : Z.
Hypothesis clock_on_day : on_day clock day.

Lemma attempts_market_ids_nodup (uid : string) (l : list delivery) :
  NoDup (alert_key <$> l) →
  NoDup ((λ e, market_id (d_market e)) <$> attempts_for uid l).
Proof.
  unfold attempts_for. induction l as [|e l IH]; intros Hnd; [constructor|].
  simpl in Hnd. apply NoDup_cons in Hnd as [He Hnd].
  rewrite filter_cons. case_decide as Hu; [|by apply IH].
  simpl. apply NoDup_cons. split; [|by apply IH].
  intros Hin. apply list_elem_of_fmap in Hin as (e' & Hm & He').
  apply list_elem_of_filter in He' as [Hu' He'].
  apply He. apply list_elem_of_fmap. exists e'. split; [|done].
  unfold alert_key. congruence.
Qed.

(** The attempts made for a user are not more than the count the
    free-tier check reads for that user. *)
Lemma attempts_le_count (uid : string) (s : state) :
  attempts_recorded clock s → NoDup (alert_key <$> log s) →
  (length (attempts_for uid (log s))
   ≤ alert_count (alert_cache (st_db s)) uid day)%nat.
Proof.
  intros Hrec Hnd.
  destruct (alert_count_markets (alert_cache (st_db s)) uid day) as (X & HX & ->).
  pose proof (attempts_market_ids_nodup uid (log s) Hnd) as Hids.
  rewrite <- (length_fmap (λ e, market_id (d_market e))).
  rewrite <- (size_list_to_set (C := gset string)) by done.
  apply subseteq_size. intros mid Hmid.
  apply elem_of_list_to_set, list_elem_of_fmap in Hmid as (e & -> & He).
  apply list_elem_of_filter in He as [Hu He].
  destruct (Hrec e He) as (n & _ & Hl). rewrite Hu in Hl.
  apply HX. exists (clock n). split; [done | apply clock_on_day].
Qed.

Lemma quota_process_user (uid : string) (m : market) (old : option old_data)
    (u : user_row) (s : state) :
  (user_id u = uid → is_pro u = false) →
  attempts_recorded clock s ∧ NoDup (alert_key <$> log s)
  ∧ (length (attempts_for uid (log s)) ≤ 2)%nat →
  let s' := (process_user clock notify m old u s).2 in
  attempts_recorded clock s' ∧ NoDup (alert_key <$> log s')
  ∧ (length (attempts_for uid (log s')) ≤ 2)%nat.
Proof.
  intros Hfree (Hrec & Hnd & Hlen) s'.
  destruct (keys_process_user m old u s (conj Hrec Hnd)) as [Hrec' Hnd'].
  fold s' in Hrec', Hnd'. split; [done|]. split; [done|].
  pose proof (attempts_le_count uid s' Hrec' Hnd') as Hle.
  destruct (process_user_cases clock notify m old u s)
    as [Hlog | (k & dt & _ & _ & _ & _ & Hlog & Hq)]; fold s' in Hlog.
  - by rewrite Hlog.
  - destruct (decide (user_id u = uid)) as [Hu|Hu].
    + specialize (Hq (Hfree Hu)). fold s' in Hq.
      rewrite clock_on_day, Hu in Hq. lia.
    + rewrite Hlog. unfold attempts_for. rewrite filter_app, filter_cons.
      simpl. rewrite decide_False by done. rewrite filter_nil, app_nil_r.
      exact Hlen.
Qed.

(** X13: in a cycle whose clock readings lie less than 30 minutes
    apart and on one calendar day, a free-tier user is attempted at
    most two alerts, however many markets qualify: the third record
    of the day is written before the count is read. *)
Theorem free_user_two_per_cycle (markets : list market) (d : db) (uid : string) :
  (∀ u, u ∈ users d → user_id u = uid → is_pro u = false) →
  (length (attempts_for uid (run_cycle clock notify markets d).2) ≤ 2)%nat.
Proof.
  intros Hfree. unfold run_cycle. simpl.
  set (s0 := {| st_db := d; reads := 0; log := [] |}).
  set (Inv := λ s, attempts_recorded clock s ∧ NoDup (alert_key <$> log s)
                   ∧ (length (attempts_for uid (log s)) ≤ 2)%nat).
  refine (proj2 (proj2 (poll_markets_preserves clock notify
            (λ s s', Inv s → Inv s') markets s0 _ _ _ _ _))).
  - auto.
  - auto.
  - intros m u old s _ Hu. apply quota_process_user. by apply Hfree.
  - intros m s _ (Hrec & Hnd & Hlen).
    split; [by apply recorded_update_market_cache|done].
  - split; [|split; [constructor | simpl; lia]].
    intros e He. by apply elem_of_nil in He.
Qed.

End CycleBounds.

(* ===================================================================== *)
(** ** The market cache *)
(* ===================================================================== *)

Section MarketCache.

Variable clock : nat → Z.


Variable notify : notifier.

(** X15: a cycle never deletes a row of the market cache, and it
    leaves the row of every market that is not in the fetched list
    exactly as it was. *)
Theorem unfetched_markets_untouched (markets : list market) (d : db)
    (mid : string) :
  (is_Some (market_cache d !! mid) →
   is_Some (market_cache (run_cycle clock notify markets d).1 !! mid))
  ∧ (mid ∉ market_id <$> markets →
     market_cache (run_cycle clock notify markets d).1 !! mid
     = market_cache d !! mid).
Proof.
  unfold run_cycle. simpl.
  set (s0 := {| st_db := d; reads := 0; log := [] |}).
  refine (poll_markets_preserves clock notify
            (λ s s', (is_Some (market_cache (st_db s) !! mid) →
                      is_Some (market_cache (st_db s') !! mid))
                     ∧ (mid ∉ market_id <$> markets →
                        market_cache (st_db s') !! mid
                        = market_cache (st_db s) !! mid)) markets s0 _ _ _ _).
  - by intros s.
  - intros s1 s2 s3 [H12 K12] [H23 K23]. split; [auto|].
    intros Hm. by rewrite K23, K12.
  - intros m u old s _ _.
    destruct (process_user_keeps_markets clock notify m old u s) as [_ ->].
    done.
  - intros m s Hm. rewrite update_market_cache_eq. simpl. split.
    + destruct (decide (market_id m = mid)) as [<-|Hne].
      * rewrite lookup_insert_eq. eauto.
      * by rewrite lookup_insert_ne.
    + intros Hmid. rewrite lookup_insert_ne; [done|].
      intros <-. apply Hmid, list_elem_of_fmap. by exists m.
Qed.


End MarketCache.

(* ===================================================================== *)
(** ** Concrete runs of the properties above *)
(* ===================================================================== *)


Lemma unfetched_markets_untouched_witness :
  market_cache (run_cycle (Sample.at_time 0) Sample.always_sent
                  [Sample.mk "m2" 0.5 10] Sample.seen_once).1 !! "m1"
  = market_cache Sample.seen_once !! "m1".
Proof.
  apply (unfetched_markets_untouched (Sample.at_time 0) Sample.always_sent
           [Sample.mk "m2" 0.5 10] Sample.seen_once "m1").
  simpl. intros H. apply list_elem_of_singleton in H. discriminate H.
Defined.


Lemma zero_price_is_never_delivered_witness :
  d_outcome
    {| d_user := "42"; d_market := Sample.mk "m1" 0 1000; d_kind := price_shift;
       d_details := make_details (Sample.mk "m1" 0 1000) Sample.sample_old;
       d_outcome := attempt Sample.always_sent 0 "42" (Sample.mk "m1" 0 1000)
                      price_shift
                      (make_details (Sample.mk "m1" 0 1000) Sample.sample_old) |}
  = Failed.
Proof.
  apply (proj2 (zero_price_is_never_delivered
                  (Sample.at_time (Sample.midnight + Sample.minutes 5))
                  Sample.always_sent [Sample.mk "m1" 0 1000] Sample.seen_once)).
  - assert (Hlog : (run_cycle (Sample.at_time (Sample.midnight + Sample.minutes 5))
                      Sample.always_sent [Sample.mk "m1" 0 1000] Sample.seen_once).2
                   = [ {| d_user := "42"; d_market := Sample.mk "m1" 0 1000;
                          d_kind := price_shift;
                          d_details := make_details (Sample.mk "m1" 0 1000)
                                         Sample.sample_old;
                          d_outcome := Failed |} ]) by (vm_compute; reflexivity).
    rewrite Hlog. apply list_elem_of_here.
  - reflexivity.
Defined.

Lemma cooldown_rows_written_witness :
  is_Some (alert_cache
             (run_cycle (Sample.at_time (Sample.midnight + Sample.minutes 5))
                Sample.always_sent [Sample.mk "m2" 0.5 10]
                (run_cycles Sample.three_jumps Sample.one_user).1).1
             !! ("m3", "42")).
Proof.
  apply (cooldown_rows_written (Sample.at_time (Sample.midnight + Sample.minutes 5))
           Sample.always_sent [Sample.mk "m2" 0.5 10]
           (run_cycles Sample.three_jumps Sample.one_user).1 ("m3", "42")).
  exists (Sample.midnight + Sample.minutes 5). vm_compute. reflexivity.
Defined.

Lemma first_sighting_is_silent_witness :
  (run_cycle (Sample.at_time Sample.midnight) Sample.always_sent
     (Sample.three_markets 0.4) Sample.one_user).2 = []
  ∧ alert_cache (run_cycle (Sample.at_time Sample.midnight) Sample.always_sent
                   (Sample.three_markets 0.4) Sample.one_user).1
    = alert_cache Sample.one_user.
Proof.
  apply (first_sighting_is_silent (Sample.at_time Sample.midnight)
           Sample.always_sent (Sample.three_markets 0.4) Sample.one_user).
  - simpl. repeat (apply NoDup_cons; split;
                   [intros H; repeat (apply elem_of_cons in H as [H|H];
                                      [discriminate H|]);
                    by apply elem_of_nil in H|]).
    apply NoDup_nil_2.
  - intros m _. reflexivity.
Defined.

Lemma at_time_short (t : Z) : short_cycle (Sample.at_time t).
Proof. intros i j. unfold Sample.at_time. rewrite Z.sub_diag. reflexivity. Qed.

Lemma one_attempt_per_pair_witness :
  NoDup (alert_key <$> (run_cycle (Sample.at_time (Sample.midnight + Sample.minutes 5))
                          Sample.always_sent
                          [Sample.sample_market; Sample.both_rules_market]
                          Sample.seen_once).2).
Proof.
  apply (one_attempt_per_pair (Sample.at_time (Sample.midnight + Sample.minutes 5))
           Sample.always_sent (at_time_short _)).
Defined.

Lemma free_user_two_per_cycle_witness :
  (length (attempts_for "42"
             (run_cycles Sample.three_jumps Sample.one_user).2) ≤ 2)%nat.
Proof.
  assert (Hrun : (run_cycles Sample.three_jumps Sample.one_user).2
                 = (run_cycle (Sample.at_time (Sample.midnight + Sample.minutes 5))
                      Sample.always_sent (Sample.three_markets 0.48)
                      (run_cycle (Sample.at_time Sample.midnight) Sample.always_sent
                         (Sample.three_markets 0.40) Sample.one_user).1).2)
    by (vm_compute; reflexivity).
  rewrite Hrun.
  apply (free_user_two_per_cycle (Sample.at_time (Sample.midnight + Sample.minutes 5))
           Sample.always_sent (at_time_short _) 20000).
  - intros n. reflexivity.
  - intros u Hu _.
    assert (Hus : users (run_cycle (Sample.at_time Sample.midnight) Sample.always_sent
                           (Sample.three_markets 0.40) Sample.one_user).1
                  = users Sample.one_user) by (vm_compute; reflexivity).
    rewrite Hus in Hu. apply list_elem_of_singleton in Hu as ->. reflexivity.
Defined.

(* ===================================================================== *)
(** ** A market that did not move *)
(* ===================================================================== *)

Section Unchanged.

#[local] Open Scope float_scope.

(** The change in percent from a value to itself is a zero, or is
    not a number (when the value is infinite). *)
Lemma pct_change_same (x : float) :
  (∃ s, Prim2SF (pct_change x x) = S754_zero s)
  ∨ Prim2SF (pct_change x x) = S754_nan.
Proof.
  unfold pct_change. destruct (0 <? x) eqn:Hpos; [|left; by exists false].
  rewrite ltb_spec in Hpos. rewrite mul_spec, div_spec, sub_spec.
  change (Prim2SF 0) with (S754_zero false) in Hpos.
  change (Prim2SF 100) with (S754_finite false 7036874417766400 (-46)).
  destruct (Prim2SF x) as [s|s| |s m e]; try destruct s; try discriminate Hpos.
  - by right.
  - left. exists false.
    unfold SF64sub, SFsub. cbv zeta.
    rewrite Z.min_id. unfold shl_align. rewrite Z.sub_diag. cbn [fst cond_Zopp].
    try rewrite Z.sub_diag. reflexivity.
Qed.

Lemma accepted_threshold_not_below (th : float) (s : bool) :
  threshold_accepted th → SFleb (Prim2SF th) (S754_zero s) = false.
Proof.
  intros [H1 H20]. revert H1 H20. rewrite !ltb_spec.
  change (Prim2SF 1) with (S754_finite false 4503599627370496 (-52)).
  change (Prim2SF 20) with (S754_finite false 5629499534213120 (-48)).
  destruct (Prim2SF th) as [s'|s'| |s' m e]; try destruct s'; simpl;
    try reflexivity; try discriminate.
Qed.

Lemma no_alert_when_unchanged (m : market) (od : old_data) (th : float) :
  threshold_accepted th →
  last_price od = yes_price m →
  last_volume od = volume_24h m →
  check_alert_conditions m (Some od) th = None.
Proof.
  intros Hth Hp Hv. rewrite check_alert_conditions_cases.
  assert (Ha : rule_a m od th = false).
  { unfold rule_a, price_change. rewrite Hp, leb_spec, abs_spec.
    destruct (pct_change_same (yes_price m)) as [[s ->] | ->]; simpl.
    - by apply accepted_threshold_not_below.
    - unfold SFleb. simpl. by destruct (Prim2SF th). }
  assert (Hb : rule_b m od = false).
  { unfold rule_b, volume_change. rewrite Hv, ltb_spec.
    change (Prim2SF 200) with (S754_finite false 7036874417766400 (-45)).
    by destruct (pct_change_same (volume_24h m)) as [[s ->] | ->]. }
  by rewrite Ha, Hb.
Qed.

(** X16: a market whose price and volume are those of its cached
    state gives no alert to a user whose threshold passed the guard
    of [/threshold]: the changes are zero (or not a number), which
    neither rule accepts. *)
Theorem unchanged_market_never_alerts (m : market) (od : old_data) (th : float) :
  threshold_accepted th →
  last_price od = yes_price m →
  last_volume od = volume_24h m →
  check_alert_conditions m (Some od) th = None.
Proof. apply no_alert_when_unchanged. Qed.

Lemma unchanged_market_never_alerts_witness :
  check_alert_conditions Sample.sample_market
    (Some {| last_price := 0.48; last_volume := 1200 |}) 5 = None.
Proof.
  apply (unchanged_market_never_alerts Sample.sample_market
           {| last_price := 0.48; last_volume := 1200 |} 5);
    [by split | reflexivity | reflexivity].
Defined.

End Unchanged.

(* ===================================================================== *)
(** ** Fetching the same data again *)
(* ===================================================================== *)

Section Repeated.

Variable clock : nat → Z.
Variable notify : notifier.






End Repeated.



(* ===================================================================== *)
(** ** Blank keywords, and more keywords *)
(* ===================================================================== *)

Section Keywords.

Lemma split_from_nonempty (acc s : string) :
  Str.is_empty acc = false → Str.split_from acc s ≠ [].
Proof.
  revert acc. induction s as [|c s IH]; intros acc Hacc; simpl.
  - by rewrite Hacc.
  - destruct (Str.isspace c); [by rewrite Hacc|].
    apply IH. by destruct acc.
Qed.

Lemma split_nil_all_space (k : string) :
  Str.split k = [] ↔ all_space k = true.
Proof.
  unfold Str.split. induction k as [|c k IH]; simpl; [done|].
  destruct (Str.isspace c); simpl; [done|].
  split; [|done]. intros H. by apply split_from_nonempty in H.
Qed.

(** X18: a keyword string that is empty or holds only white space
    gives no keyword, and then the user matches every market; a
    string with any other character gives at least one keyword. *)
Theorem blank_keywords_match_all (k : string) :
  (user_keywords k = [] ↔ all_space k = true)
  ∧ (all_space k = true → ∀ m, matches m k = true).
Proof.
  rewrite user_keywords_split. split; [apply split_nil_all_space|].
  intros H m. unfold matches. rewrite user_keywords_split.
  apply split_nil_all_space in H. by rewrite H.
Qed.

Lemma blank_keywords_match_all_witness :
  matches Sample.sample_market "  " = true.
Proof.
  apply (proj2 (blank_keywords_match_all "  ")). reflexivity.
Defined.

(** X19: for a user who has at least one keyword, more keywords
    never lose a match: a market matched by the stored string is
    matched by the string [/subscribe] makes of it. *)
Theorem more_keywords_keep_matches (m : market) (k k' : string) :
  user_keywords k ≠ [] →
  matches m k = true →
  matches m (k ++ " " ++ k') = true.
Proof.
  unfold matches. rewrite !user_keywords_split.
  unfold Str.split at 3. rewrite SplitFacts.split_from_app_space.
  fold (Str.split k).
  destruct (Str.split k) as [|w ws] eqn:E; [done|]. intros _ Hm.
  change (existsb (keyword_hits m) ((w :: ws) ++ Str.split k')%list = true).
  rewrite existsb_app. by rewrite Hm.
Qed.

Lemma more_keywords_keep_matches_witness :
  matches Sample.sample_market ("bitcoin" ++ " " ++ "sports") = true.
Proof.
  apply (more_keywords_keep_matches Sample.sample_market "bitcoin" "sports");
    [discriminate | reflexivity].
Defined.

End Keywords.
